(** * PointCloud2 decoder for G1 SLAM point clouds

    A shallow embedding of
    [src/unitree_webrtc_connect/lidar/pointcloud2_decoder.py]
    (class [PointCloud2Decoder]) and the properties its specification
    states about it.

    Conventions of the embedding:
    - [bytes] is a list of [Byte.byte];
    - Python [int] is [Z]; [//] and [%] with a positive divisor are
      [Z.div] and [Z.modulo] (both round towards minus infinity);
    - a NumPy scalar of dtype [int16] is its signed value in [Z]; a scalar
      of dtype [float32] is its IEEE-754 binary32 bit pattern, and its
      arithmetic goes through the Standard Library's [spec_float] at
      precision 24 and maximal exponent 128;
    - NumPy's native byte order is taken to be little-endian;
    - a [Dict[str, Any]] is a [gmap string value];
    - a Python exception is the [Raise] case of [result]; [try]/[except
      Exception] is [try_except];
    - the call to [logger.error] in the handler writes to the logging sink
      only and is left out of the returned value; module [Dynamic] embeds
      the same methods on buffer objects of any item size and threads the
      sink through [decode]. *)

From Stdlib Require Import ZArith Zbitwise List Lia.
From Stdlib Require Import Strings.Byte.
From Stdlib Require Import Floats.SpecFloat.
From stdpp Require Import gmap strings list pretty.

Local Open Scope Z_scope.

(** ** Exceptions and the error monad *)

Inductive exn : Type :=
  | ValueError (msg : string)
  | IndexError (msg : string).

(** [str(exc)] *)
Definition str (exc : exn) : string :=
  match exc with
  | ValueError msg => msg
  | IndexError msg => msg
  end.

Inductive result (A : Type) : Type :=
  | Ok (a : A)
  | Raise (exc : exn).
Arguments Ok {A} a.
Arguments Raise {A} exc.

#[global] Instance result_ret : MRet result := @Ok.
#[global] Instance result_bind : MBind result := λ A B f m,
  match m with
  | Ok a => f a
  | Raise exc => Raise exc
  end.

(** [try: body  except Exception as exc: handler exc] *)
Definition try_except {A : Type} (body : result A) (handler : exn → result A)
    : result A :=
  match body with
  | Ok a => Ok a
  | Raise exc => handler exc
  end.

(** ** Bytes and machine scalars *)

Abbreviation bytes := (list byte).

Definition byte_val (b : byte) : Z := Z.of_N (Byte.to_N b).

(** Two bytes, least significant first, read as a two's complement
    16-bit integer. *)
Definition int16_le (b0 b1 : byte) : Z :=
  let u := Z.lor (byte_val b0) (Z.shiftl (byte_val b1) 8) in
  if 32768 <=? u then u - 65536 else u.

Record float32 : Type := F32 { f32_bits : Z }.
Record float64 : Type := F64 { f64_bits : Z }.

(** Four bytes, least significant first, read as a binary32 pattern. *)
Definition float32_le (b0 b1 b2 b3 : byte) : float32 :=
  F32 (Z.lor (byte_val b0)
      (Z.lor (Z.shiftl (byte_val b1) 8)
      (Z.lor (Z.shiftl (byte_val b2) 16)
             (Z.shiftl (byte_val b3) 24)))).

Module Float32.

Definition prec : Z := 24.
Definition emax : Z := 128.

(** The value a binary32 pattern denotes: sign bit 31, biased exponent
    in bits 30..23, fraction in bits 22..0. *)
Definition to_SF (x : float32) : spec_float :=
  let b := f32_bits x in
  let s := Z.testbit b 31 in
  let e := Z.land (Z.shiftr b 23) 255 in
  let m := Z.land b 8388607 in
  if e =? 0 then
    match m with
    | Zpos p => S754_finite s p (-149)
    | _ => S754_zero s
    end
  else if e =? 255 then
    if m =? 0 then S754_infinity s else S754_nan
  else
    match m + 8388608 with
    | Zpos p => S754_finite s p (e - 150)
    | _ => S754_nan
    end.

Definition sign_bit (s : bool) : Z := if s then 2147483648 else 0.

(** The pattern of a canonical binary32 value; NaN is the quiet NaN with
    an empty payload. *)
Definition of_SF (v : spec_float) : float32 :=
  match v with
  | S754_zero s => F32 (sign_bit s)
  | S754_infinity s => F32 (Z.lor (sign_bit s) 2139095040)
  | S754_nan => F32 2143289344
  | S754_finite s m e =>
      if 8388608 <=? Zpos m
      then F32 (Z.lor (sign_bit s)
               (Z.lor (Z.shiftl (e + 150) 23) (Zpos m - 8388608)))
      else F32 (Z.lor (sign_bit s) (Zpos m))
  end.

(** [np.float32(v)] for an integer [v] *)
Definition of_int (v : Z) : float32 :=
  of_SF (binary_normalize prec emax v 0 false).

(** [x / y] on float32, rounded to nearest even *)
Definition div (x y : float32) : float32 :=
  of_SF (SFdiv prec emax (to_SF x) (to_SF y)).

End Float32.

(** ** The NumPy operations the decoder uses *)

(** A two-dimensional array of shape [(length rows, ncols)], row-major.
    One-dimensional arrays are plain lists. *)
Record matrix (A : Type) : Type := Matrix { ncols : nat; rows : list (list A) }.
Arguments Matrix {A} ncols rows.
Arguments ncols {A} m.
Arguments rows {A} m.

Definition matrix_map {A B : Type} (f : A → B) (m : matrix A) : matrix B :=
  Matrix (ncols m) (fmap (M:=list) (fmap (M:=list) f) (rows m)).

(** The first [n] consecutive groups of [c] elements of [xs]. *)
Fixpoint chunks {A : Type} (c n : nat) (xs : list A) : list (list A) :=
  match n with
  | O => []
  | S n' => take c xs :: chunks c n' (drop c xs)
  end.

Fixpoint int16_items (buf : bytes) : list Z :=
  match buf with
  | b0 :: b1 :: rest => int16_le b0 b1 :: int16_items rest
  | _ => []
  end.

Fixpoint float32_items (buf : bytes) : list float32 :=
  match buf with
  | b0 :: b1 :: b2 :: b3 :: rest => float32_le b0 b1 b2 b3 :: float32_items rest
  | _ => []
  end.

Definition buffer_size_error : exn :=
  ValueError "buffer size must be a multiple of element size".

(** [np.frombuffer(buf, dtype=np.int16)] *)
Definition frombuffer_int16 (buf : bytes) : result (list Z) :=
  if Z.of_nat (length buf) mod 2 =? 0
  then Ok (int16_items buf)
  else Raise buffer_size_error.

(** [np.frombuffer(buf, dtype=np.float32)] *)
Definition frombuffer_float32 (buf : bytes) : result (list float32) :=
  if Z.of_nat (length buf) mod 4 =? 0
  then Ok (float32_items buf)
  else Raise buffer_size_error.

Definition reshape_error (size : nat) (r c : Z) : exn :=
  ValueError ("cannot reshape array of size " +:+ pretty size +:+
              " into shape (" +:+ pretty r +:+ "," +:+ pretty c +:+ ")").

(** [xs.reshape((r, c))] for a one-dimensional [xs] and dimensions given
    as integers (the decoder never passes [-1]). *)
Definition reshape {A : Type} (xs : list A) (shape : Z * Z) : result (matrix A) :=
  let '(r, c) := shape in
  if (0 <=? r) && (0 <=? c) && (r * c =? Z.of_nat (length xs))
  then Ok (Matrix (Z.to_nat c) (chunks (Z.to_nat c) (Z.to_nat r) xs))
  else Raise (reshape_error (length xs) r c).

(** [m[:, :k]] *)
Definition slice_cols {A : Type} (k : nat) (m : matrix A) : matrix A :=
  Matrix (k `min` ncols m) (fmap (M:=list) (take k) (rows m)).

(** [m[:, k]] *)
Definition column {A : Type} (k : nat) (m : matrix A) : result (list A) :=
  if decide (k < ncols m)%nat
  then Ok (omap (λ row, row !! k) (rows m))
  else Raise (IndexError ("index " +:+ pretty k +:+
                          " is out of bounds for axis 1 with size " +:+
                          pretty (ncols m))).

(** [m.astype(np.float32)] on an int16 array *)
Definition astype_float32 (m : matrix Z) : matrix float32 :=
  matrix_map Float32.of_int m.

(** [m / d] on a float32 array and a Python float [d]: the scalar is weak,
    so the quotient is computed and stored in float32. *)
Definition truediv (m : matrix float32) (d : float32) : matrix float32 :=
  matrix_map (λ x, Float32.div x d) m.

(** The Python float [1000.0] as a float32 operand. *)
Definition f32_1000 : float32 := Float32.of_int 1000.

(** ** Values stored in the returned dictionary *)

Inductive value : Type :=
  | VInt (n : Z)
  | VStr (s : string)
  | VVec64 (xs : list float64)
  | VVec32 (xs : list float32)
  | VMat32 (m : matrix float32).

(** [len(v)]; an [int] has none. *)
Definition len (v : value) : option Z :=
  match v with
  | VInt _ => None
  | VStr s => Some (Z.of_nat (String.length s))
  | VVec64 xs => Some (Z.of_nat (length xs))
  | VVec32 xs => Some (Z.of_nat (length xs))
  | VMat32 m => Some (Z.of_nat (length (rows m)))
  end.

(** [np.array([])]: one-dimensional, dtype float64, no element. *)
Definition np_array_empty : value := VVec64 [].

(** ** class PointCloud2Decoder *)

Definition _decode_xyz_float32 (binary_data : bytes) : result (gmap string value) :=
  let num_points := Z.of_nat (length binary_data) / 12 in
  flat ← frombuffer_float32 binary_data;
  points ← reshape flat (num_points, 3);
  mret {[ "point_count" := VInt num_points;
          "points" := VMat32 points;
          "format" := VStr "xyz_float32" ]}.

Definition _decode_xyzi_float32 (binary_data : bytes) : result (gmap string value) :=
  let num_points := Z.of_nat (length binary_data) / 16 in
  flat ← frombuffer_float32 binary_data;
  data ← reshape flat (num_points, 4);
  intensities ← column 3 data;
  mret {[ "point_count" := VInt num_points;
          "points" := VMat32 (slice_cols 3 data);
          "intensities" := VVec32 intensities;
          "format" := VStr "xyzi_float32" ]}.

Definition _decode_int16_12byte (binary_data : bytes) : result (gmap string value) :=
  if negb (Z.of_nat (length binary_data) mod 12 =? 0)
  then mret {[ "point_count" := VInt 0; "points" := np_array_empty ]}
  else
    let num_points := Z.of_nat (length binary_data) / 12 in
    flat ← frombuffer_int16 binary_data;
    data_int16 ← reshape flat (num_points, 6);
    let xyz_raw := astype_float32 (slice_cols 3 data_int16) in
    let points := truediv xyz_raw f32_1000 in
    mret {[ "point_count" := VInt num_points;
            "points" := VMat32 points;
            "format" := VStr "g1_slam_int16_12byte" ]}.

(** The statements of the [try] block of [decode]. *)
Definition decode_try (binary_data : bytes) : result (gmap string value) :=
  let data_len := Z.of_nat (length binary_data) in
  if data_len =? 0
  then mret {[ "point_count" := VInt 0; "points" := np_array_empty ]}
  else if data_len mod 12 =? 0 then _decode_int16_12byte binary_data
  else if data_len mod 16 =? 0 then _decode_xyzi_float32 binary_data
  else if data_len mod 12 =? 0 then _decode_xyz_float32 binary_data
  else _decode_int16_12byte binary_data.

(** The [except Exception as exc] clause of [decode]. *)
Definition decode_except (exc : exn) : result (gmap string value) :=
  mret {[ "point_count" := VInt 0;
          "points" := np_array_empty;
          "error" := VStr (str exc) ]}.

Definition decode (binary_data : bytes) (metadata : option (gmap string value))
    : result (gmap string value) :=
  try_except (decode_try binary_data) decode_except.

(** ** Sample buffers *)

(** int16 values [1000, 2000, -500, 0, 0, 0] *)
Definition sample_int16 : bytes :=
  [xe8; x03; xd0; x07; x0c; xfe; x00; x00; x00; x00; x00; x00].

(** float32 values [1.5, 2.5, 3.5, 0.9] *)
Definition sample_xyzi : bytes :=
  [x00; x00; xc0; x3f;  x00; x00; x20; x40;
   x00; x00; x60; x40;  x66; x66; x66; x3f].

Definition sample_13 : bytes := sample_int16 ++ [x2a].

(** ** Vocabulary for the scaled coordinates *)

(** What [astype(np.float32)] followed by [/ 1000.0] stores for the raw
    int16 value [v]. *)
Definition scale_int16 (v : Z) : float32 :=
  Float32.div (Float32.of_int v) f32_1000.

(** The pattern denotes a zero or a finite number (not NaN, not an
    infinity). *)
Definition is_finite (x : float32) : bool :=
  match Float32.to_SF x with
  | S754_zero _ | S754_finite _ _ _ => true
  | S754_infinity _ | S754_nan => false
  end.

(** An integer that orders binary32 patterns as the numbers they denote:
    the pattern itself for a clear sign bit, minus the magnitude bits for
    a set one. *)
Definition pattern_key (x : float32) : Z :=
  if f32_bits x <? 2147483648 then f32_bits x else 2147483648 - f32_bits x.

(** +0.0 for [v = 0]; otherwise a finite number of the sign of [v] whose
    magnitude lies between the patterns of 0.001 and 32.768. *)
Definition scaled_in_range (v : Z) (x : float32) : bool :=
  let b := f32_bits x in
  is_finite x &&
  (if v =? 0 then b =? 0
   else if 0 <? v then (0x3A83126F <=? b) && (b <=? 0x4203126F)
   else (0xBA83126F <=? b) && (b <=? 0xC203126F)).

(** Checks [scaled_in_range] on [v, v + 1, ..., v + n - 1] and that the
    keys of their scaled values increase strictly, starting above [prev]. *)
Fixpoint scale_check (prev v : Z) (n : nat) : bool :=
  match n with
  | O => true
  | S n' =>
      let x := scale_int16 v in
      scaled_in_range v x && (prev <? pattern_key x) &&
      scale_check (pattern_key x) (v + 1) n'
  end.

(** [sample_int16] with other bytes in its three unused fields *)
Definition sample_int16_padded : bytes :=
  [xe8; x03; xd0; x07; x0c; xfe; xff; x7f; x01; x80; x34; x12].

(** ** The decoder on buffer objects, with the logging sink

    [decode] is annotated with [bytes] but runs on whatever object it is
    given. [Dynamic] embeds the same four methods on one-dimensional
    buffer objects whose items may be wider than a byte (a [memoryview]
    or [array.array] of int16, say): [len] counts items, [np.frombuffer]
    reads the bytes underneath. On such objects the NumPy calls can fail,
    so the handler of [decode] runs; its call of [logger.error] is an
    append to the logging sink, the only state the module shares. The
    traceback that [exc_info=True] adds to the record is left out. *)

Module Dynamic.

(** A buffer object: [itemsize] bytes per item, [raw] the bytes exported
    (a whole number of items). [bytes] and [bytearray] have [itemsize]
    1. *)
Record pybuffer : Type := PyBuffer { itemsize : positive; raw : bytes }.

Definition of_bytes (data : bytes) : pybuffer := PyBuffer 1 data.

(** [len(o)]: the number of items *)
Definition py_len (o : pybuffer) : Z :=
  Z.of_nat (length (raw o)) / Zpos (itemsize o).

Record log_record : Type := LogRecord { levelname : string; message : string }.

(** [logger.error("PointCloud2 decode error: %s", exc, ...)] *)
Definition logger_error (exc : exn) (sink : list log_record) : list log_record :=
  sink ++ [LogRecord "ERROR" ("PointCloud2 decode error: " +:+ str exc)].

Definition _decode_xyz_float32 (binary_data : pybuffer)
    : result (gmap string value) :=
  let num_points := py_len binary_data / 12 in
  flat ← frombuffer_float32 (raw binary_data);
  points ← reshape flat (num_points, 3);
  mret {[ "point_count" := VInt num_points;
          "points" := VMat32 points;
          "format" := VStr "xyz_float32" ]}.

Definition _decode_xyzi_float32 (binary_data : pybuffer)
    : result (gmap string value) :=
  let num_points := py_len binary_data / 16 in
  flat ← frombuffer_float32 (raw binary_data);
  data ← reshape flat (num_points, 4);
  intensities ← column 3 data;
  mret {[ "point_count" := VInt num_points;
          "points" := VMat32 (slice_cols 3 data);
          "intensities" := VVec32 intensities;
          "format" := VStr "xyzi_float32" ]}.

Definition _decode_int16_12byte (binary_data : pybuffer)
    : result (gmap string value) :=
  if negb (py_len binary_data mod 12 =? 0)
  then mret {[ "point_count" := VInt 0; "points" := np_array_empty ]}
  else
    let num_points := py_len binary_data / 12 in
    flat ← frombuffer_int16 (raw binary_data);
    data_int16 ← reshape flat (num_points, 6);
    let xyz_raw := astype_float32 (slice_cols 3 data_int16) in
    let points := truediv xyz_raw f32_1000 in
    mret {[ "point_count" := VInt num_points;
            "points" := VMat32 points;
            "format" := VStr "g1_slam_int16_12byte" ]}.

(** The statements of the [try] block of [decode]. *)
Definition decode_try (binary_data : pybuffer) : result (gmap string value) :=
  let data_len := py_len binary_data in
  if data_len =? 0
  then mret {[ "point_count" := VInt 0; "points" := np_array_empty ]}
  else if data_len mod 12 =? 0 then _decode_int16_12byte binary_data
  else if data_len mod 16 =? 0 then _decode_xyzi_float32 binary_data
  else if data_len mod 12 =? 0 then _decode_xyz_float32 binary_data
  else _decode_int16_12byte binary_data.

(** The [except Exception as exc] clause of [decode]: log, then return
    the error dictionary. *)
Definition decode_except (exc : exn) (sink : list log_record)
    : result (gmap string value) * list log_record :=
  let sink' := logger_error exc sink in
  (mret {[ "point_count" := VInt 0;
           "points" := np_array_empty;
           "error" := VStr (str exc) ]}, sink').

(** [decode], from a state of the logging sink to the outcome and the
    state it leaves. *)
Definition decode (binary_data : pybuffer)
    (metadata : option (gmap string value)) (sink : list log_record)
    : result (gmap string value) * list log_record :=
  match decode_try binary_data with
  | Ok r => (Ok r, sink)
  | Raise exc => decode_except exc sink
  end.

(** A [memoryview] of twelve int16 items over 24 bytes *)
Definition sample_int16_view : pybuffer :=
  PyBuffer 2 (sample_int16 ++ sample_int16_padded).

(** A [memoryview] of sixteen int16 items over 32 bytes *)
Definition sample_int16_view16 : pybuffer :=
  PyBuffer 2 (sample_xyzi ++ sample_xyzi).

End Dynamic.

(** ** Worked examples *)

Example f32_of_int_1000 : Float32.of_int 1000 = F32 0x447A0000.
Proof. reflexivity. Qed.

Example f32_div_1000_1000 :
  Float32.div (Float32.of_int 1000) (Float32.of_int 1000) = F32 0x3F800000.
Proof. reflexivity. Qed.

Example f32_div_m500_1000 :
  Float32.div (Float32.of_int (-500)) (Float32.of_int 1000) = F32 0xBF000000.
Proof. reflexivity. Qed.

Example f32_div_1_1000 :
  Float32.div (Float32.of_int 1) (Float32.of_int 1000) = F32 0x3A83126F.
Proof. reflexivity. Qed.

Example f32_scale_extremes :
  Float32.div (Float32.of_int 32767) f32_1000 = F32 0x42031168 ∧
  Float32.div (Float32.of_int (-32768)) f32_1000 = F32 0xC203126F ∧
  Float32.div (Float32.of_int 12345) f32_1000 = F32 0x4145851F ∧
  Float32.div (Float32.of_int 0) f32_1000 = F32 0.
Proof. repeat split; reflexivity. Qed.

Example f32_roundtrip_0_9 :
  Float32.of_SF (Float32.to_SF (F32 0x3F666666)) = F32 0x3F666666.
Proof. reflexivity. Qed.

Example decode_sample_int16 :
  decode sample_int16 None =
  Ok {[ "point_count" := VInt 1;
        "points" := VMat32 (Matrix 3 [[F32 0x3F800000; F32 0x40000000; F32 0xBF000000]]);
        "format" := VStr "g1_slam_int16_12byte" ]}.
Proof. reflexivity. Qed.

Example decode_sample_xyzi :
  decode sample_xyzi None =
  Ok {[ "point_count" := VInt 1;
        "points" := VMat32 (Matrix 3 [[F32 0x3FC00000; F32 0x40200000; F32 0x40600000]]);
        "intensities" := VVec32 [F32 0x3F666666];
        "format" := VStr "xyzi_float32" ]}.
Proof. reflexivity. Qed.

Example decode_sample_13 :
  decode sample_13 None =
  Ok {[ "point_count" := VInt 0; "points" := np_array_empty ]}.
Proof. reflexivity. Qed.

(** The NumPy calls do fail on inputs the dispatch never gives them, and
    the handler turns such a failure into an error dictionary. *)

Example frombuffer_int16_odd :
  frombuffer_int16 [x01; x02; x03] = Raise buffer_size_error.
Proof. reflexivity. Qed.

Example reshape_mismatch :
  reshape [1; 2; 3; 4; 5; 6; 7] (1, 6) =
  Raise (ValueError "cannot reshape array of size 7 into shape (1,6)").
Proof. reflexivity. Qed.

Example _decode_xyzi_float32_on_13 :
  try_except (_decode_xyzi_float32 sample_13) decode_except =
  Ok {[ "point_count" := VInt 0;
        "points" := np_array_empty;
        "error" := VStr "buffer size must be a multiple of element size" ]}.
Proof. reflexivity. Qed.

Example _decode_xyz_float32_on_sample :
  _decode_xyz_float32 sample_int16 =
  Ok {[ "point_count" := VInt 1;
        "points" := VMat32 (Matrix 3
                      [[F32 0x07D003E8; F32 0x0000FE0C; F32 0]]);
        "format" := VStr "xyz_float32" ]}.
Proof. reflexivity. Qed.

(** ** Facts about the array operations *)

Section Chunks.
Context {A : Type}.
Implicit Types (xs : list A) (c n i k : nat).

Lemma chunks_length c n xs : length (chunks c n xs) = n.
Proof.
  revert xs. induction n as [|n IH]; intros xs; simpl; [done|].
  by rewrite IH.
Qed.

Lemma chunks_lookup c n xs i :
  (i < n)%nat → chunks c n xs !! i = Some (take c (drop (i * c) xs)).
Proof.
  revert xs i. induction n as [|n IH]; intros xs i Hi; [lia|].
  destruct i as [|i]; simpl.
  - done.
  - rewrite IH by lia. by rewrite drop_drop.
Qed.

Lemma chunks_row_length c n xs :
  (n * c ≤ length xs)%nat →
  Forall (λ row, length row = c) (chunks c n xs).
Proof.
  revert xs. induction n as [|n IH]; intros xs Hlen; simpl.
  - constructor.
  - constructor.
    + rewrite length_take. lia.
    + apply IH. rewrite length_drop. lia.
Qed.

Lemma omap_lookup_length k (rs : list (list A)) :
  Forall (λ row, k < length row)%nat rs →
  length (omap (λ row, row !! k) rs) = length rs.
Proof.
  induction 1 as [|row rs Hk _ IH]; simpl; [done|].
  destruct (lookup_lt_is_Some_2 row k Hk) as [x ->]. simpl. f_equal. exact IH.
Qed.

Lemma omap_lookup_lookup k (rs : list (list A)) i :
  Forall (λ row, k < length row)%nat rs →
  omap (λ row, row !! k) rs !! i = rs !! i ≫= (λ row, row !! k).
Proof.
  intros Hall. revert i. induction Hall as [|row rs Hk _ IH]; intros i; simpl.
  - done.
  - destruct (lookup_lt_is_Some_2 row k Hk) as [x Hx]. rewrite Hx.
    destruct i as [|i]; simpl; [done|]. apply IH.
Qed.
End Chunks.

Lemma int16_items_length (k : nat) (buf : bytes) :
  length buf = (2 * k)%nat → length (int16_items buf) = k.
Proof.
  revert buf. induction k as [|k IH]; intros buf Hlen.
  - by destruct buf.
  - destruct buf as [|b0 [|b1 rest]]; simpl in *; try lia.
    rewrite (IH rest); lia.
Qed.

Lemma int16_items_drop (k : nat) (buf : bytes) :
  drop k (int16_items buf) = int16_items (drop (2 * k) buf).
Proof.
  revert buf. induction k as [|k IH]; intros buf; [done|].
  destruct buf as [|b0 [|b1 rest]];
    [by rewrite (drop_ge (A:=byte)) by (simpl; lia)..|].
  replace (2 * S k)%nat with (S (S (2 * k))) by lia. simpl drop at 2.
  simpl int16_items. simpl drop at 1. apply IH.
Qed.

Lemma int16_items_take (k : nat) (buf : bytes) :
  take k (int16_items buf) = int16_items (take (2 * k) buf).
Proof.
  revert buf. induction k as [|k IH]; intros buf; [done|].
  destruct buf as [|b0 [|b1 rest]];
    [by rewrite (take_ge (A:=byte)) by (simpl; lia)..|].
  replace (2 * S k)%nat with (S (S (2 * k))) by lia. simpl take at 2.
  simpl int16_items. simpl take at 1. by rewrite IH.
Qed.

Lemma float32_items_length (k : nat) (buf : bytes) :
  length buf = (4 * k)%nat → length (float32_items buf) = k.
Proof.
  revert buf. induction k as [|k IH]; intros buf Hlen.
  - by destruct buf.
  - destruct buf as [|b0 [|b1 [|b2 [|b3 rest]]]]; simpl in *; try lia.
    rewrite (IH rest); lia.
Qed.

Lemma float32_items_drop (k : nat) (buf : bytes) :
  drop k (float32_items buf) = float32_items (drop (4 * k) buf).
Proof.
  revert buf. induction k as [|k IH]; intros buf; [done|].
  destruct buf as [|b0 [|b1 [|b2 [|b3 rest]]]];
    [by rewrite (drop_ge (A:=byte)) by (simpl; lia)..|].
  replace (4 * S k)%nat with (S (S (S (S (4 * k))))) by lia. simpl drop at 2.
  simpl float32_items. simpl drop at 1. apply IH.
Qed.

Lemma float32_items_take (k : nat) (buf : bytes) :
  take k (float32_items buf) = float32_items (take (4 * k) buf).
Proof.
  revert buf. induction k as [|k IH]; intros buf; [done|].
  destruct buf as [|b0 [|b1 [|b2 [|b3 rest]]]];
    [by rewrite (take_ge (A:=byte)) by (simpl; lia)..|].
  replace (4 * S k)%nat with (S (S (S (S (4 * k))))) by lia. simpl take at 2.
  simpl float32_items. simpl take at 1. by rewrite IH.
Qed.

Lemma bind_Ok {A B : Type} (a : A) (f : A → result B) : Ok a ≫= f = f a.
Proof. reflexivity. Qed.

Lemma frombuffer_int16_even (buf : bytes) :
  Z.of_nat (length buf) mod 2 = 0 → frombuffer_int16 buf = Ok (int16_items buf).
Proof. intros H. unfold frombuffer_int16. by rewrite H. Qed.

Lemma frombuffer_float32_aligned (buf : bytes) :
  Z.of_nat (length buf) mod 4 = 0 →
  frombuffer_float32 buf = Ok (float32_items buf).
Proof. intros H. unfold frombuffer_float32. by rewrite H. Qed.

Lemma reshape_exact {A : Type} (xs : list A) (r c : nat) :
  length xs = (r * c)%nat →
  reshape xs (Z.of_nat r, Z.of_nat c) = Ok (Matrix c (chunks c r xs)).
Proof.
  intros H. unfold reshape.
  replace (0 <=? Z.of_nat r) with true by (symmetry; apply Z.leb_le; lia).
  replace (0 <=? Z.of_nat c) with true by (symmetry; apply Z.leb_le; lia).
  replace (Z.of_nat r * Z.of_nat c =? Z.of_nat (length xs)) with true
    by (symmetry; apply Z.eqb_eq; lia).
  simpl. by rewrite !Nat2Z.id.
Qed.

Lemma column_in_range {A : Type} (k : nat) (m : matrix A) :
  (k < ncols m)%nat → column k m = Ok (omap (λ row, row !! k) (rows m)).
Proof. intros H. unfold column. by rewrite decide_True. Qed.

(** The three results a well-formed call can produce. *)

Lemma _decode_int16_12byte_multiple (buf : bytes) (n : nat) :
  length buf = (12 * n)%nat →
  _decode_int16_12byte buf =
  Ok {[ "point_count" := VInt (Z.of_nat n);
        "points" := VMat32 (truediv (astype_float32 (slice_cols 3
                      (Matrix 6 (chunks 6 n (int16_items buf))))) f32_1000);
        "format" := VStr "g1_slam_int16_12byte" ]}.
Proof.
  intros Hlen. unfold _decode_int16_12byte.
  assert (Z.of_nat (length buf) = 12 * Z.of_nat n) as HZ by lia.
  assert (Z.of_nat (length buf) mod 12 = 0) as ->
    by (rewrite HZ; Z.div_mod_to_equations; lia).
  assert (Z.of_nat (length buf) / 12 = Z.of_nat n) as ->
    by (rewrite HZ; Z.div_mod_to_equations; lia).
  change (negb (0 =? 0)) with false. cbv iota.
  rewrite frombuffer_int16_even
    by (rewrite HZ; Z.div_mod_to_equations; lia).
  rewrite bind_Ok.
  change 6 with (Z.of_nat 6).
  rewrite reshape_exact
    by (rewrite (int16_items_length (6 * n)); lia).
  by rewrite bind_Ok.
Qed.

Lemma _decode_int16_12byte_guard (buf : bytes) :
  Z.of_nat (length buf) mod 12 ≠ 0 →
  _decode_int16_12byte buf =
  Ok {[ "point_count" := VInt 0; "points" := np_array_empty ]}.
Proof.
  intros H. unfold _decode_int16_12byte.
  by rewrite (proj2 (Z.eqb_neq _ _) H).
Qed.

Lemma _decode_xyzi_float32_multiple (buf : bytes) (n : nat) :
  length buf = (16 * n)%nat →
  _decode_xyzi_float32 buf =
  Ok {[ "point_count" := VInt (Z.of_nat n);
        "points" := VMat32 (slice_cols 3
                      (Matrix 4 (chunks 4 n (float32_items buf))));
        "intensities" := VVec32 (omap (λ row, row !! 3%nat)
                      (chunks 4 n (float32_items buf)));
        "format" := VStr "xyzi_float32" ]}.
Proof.
  intros Hlen. unfold _decode_xyzi_float32.
  assert (Z.of_nat (length buf) = 16 * Z.of_nat n) as HZ by lia.
  assert (Z.of_nat (length buf) / 16 = Z.of_nat n) as ->
    by (rewrite HZ; Z.div_mod_to_equations; lia).
  rewrite frombuffer_float32_aligned
    by (rewrite HZ; Z.div_mod_to_equations; lia).
  rewrite bind_Ok.
  change 4 with (Z.of_nat 4).
  rewrite reshape_exact
    by (rewrite (float32_items_length (4 * n)); lia).
  rewrite bind_Ok, column_in_range by (simpl; lia).
  by rewrite bind_Ok.
Qed.

(** Every buffer length falls in exactly one of three classes, and each
    class fixes the result of the [try] block. *)
Lemma decode_try_cases (buf : bytes) :
  ((length buf = 0%nat ∨
    (Z.of_nat (length buf) mod 12 ≠ 0 ∧ Z.of_nat (length buf) mod 16 ≠ 0)) ∧
   decode_try buf =
   Ok {[ "point_count" := VInt 0; "points" := np_array_empty ]})
  ∨ (∃ n : nat, (1 ≤ n)%nat ∧ length buf = (12 * n)%nat ∧
     decode_try buf = _decode_int16_12byte buf)
  ∨ (∃ n : nat, (1 ≤ n)%nat ∧ length buf = (16 * n)%nat ∧
     Z.of_nat (length buf) mod 12 ≠ 0 ∧
     decode_try buf = _decode_xyzi_float32 buf).
Proof.
  unfold decode_try.
  destruct (Z.eqb_spec (Z.of_nat (length buf)) 0) as [H0|H0].
  { left. split; [left; lia | done]. }
  destruct (Z.eqb_spec (Z.of_nat (length buf) mod 12) 0) as [H12|H12].
  { right; left. exists (length buf / 12)%nat.
    assert (length buf = (12 * (length buf / 12))%nat) as Hn.
    { apply Nat2Z.inj. rewrite Nat2Z.inj_mul, Nat2Z.inj_div.
      change (Z.of_nat 12) with 12. Z.div_mod_to_equations. lia. }
    split_and!; [lia | done | done]. }
  destruct (Z.eqb_spec (Z.of_nat (length buf) mod 16) 0) as [H16|H16].
  { right; right. exists (length buf / 16)%nat.
    assert (length buf = (16 * (length buf / 16))%nat) as Hn.
    { apply Nat2Z.inj. rewrite Nat2Z.inj_mul, Nat2Z.inj_div.
      change (Z.of_nat 16) with 16. Z.div_mod_to_equations. lia. }
    split_and!; [lia | done | done | done]. }
  left. split; [right; done|]. by apply _decode_int16_12byte_guard.
Qed.

Lemma byte_val_range (b : byte) : 0 ≤ byte_val b < 256.
Proof.
  unfold byte_val. pose proof (Byte.to_N_bounded b). lia.
Qed.

(** [int16_le] lands in the range of a signed 16-bit integer. *)
Lemma int16_le_range (b0 b1 : byte) : -32768 ≤ int16_le b0 b1 < 32768.
Proof.
  unfold int16_le.
  pose proof (byte_val_range b0) as H0. pose proof (byte_val_range b1) as H1.
  set (hi := Z.shiftl (byte_val b1) 8).
  assert (hi = byte_val b1 * 256) as Hhi
    by (subst hi; by rewrite Z.shiftl_mul_pow2 by lia).
  pose proof (Z.add_lor_land (byte_val b0) hi) as Hsum.
  assert (0 ≤ Z.land (byte_val b0) hi) by (apply Z.land_nonneg; lia).
  assert (0 ≤ Z.lor (byte_val b0) hi) by (apply Z.lor_nonneg; lia).
  cbv zeta. destruct (Z.leb_spec 32768 (Z.lor (byte_val b0) hi)); lia.
Qed.

(** Per-record reading of the two layouts. *)

Lemma int16_record (buf : bytes) (i : nat) (record : bytes) :
  take 12 (drop (12 * i) buf) = record →
  take 6 (drop (i * 6) (int16_items buf)) = int16_items record.
Proof.
  intros <-. rewrite int16_items_drop, int16_items_take.
  by replace (2 * (i * 6))%nat with (12 * i)%nat by lia.
Qed.

Lemma float32_record (buf : bytes) (i : nat) (record : bytes) :
  take 16 (drop (16 * i) buf) = record →
  take 4 (drop (i * 4) (float32_items buf)) = float32_items record.
Proof.
  intros <-. rewrite float32_items_drop, float32_items_take.
  by replace (4 * (i * 4))%nat with (16 * i)%nat by lia.
Qed.

Lemma record_in_range (buf : bytes) (w i : nat) (record : bytes) :
  take w (drop (w * i) buf) = record → length record = w → (0 < w)%nat →
  (w * i + w ≤ length buf)%nat.
Proof.
  intros <- Hlen Hw. rewrite length_take, length_drop in Hlen. lia.
Qed.

(** ** The claims *)

(** C2. For every buffer of length [12 * n] with [n >= 1], [decode]
    returns exactly the keys ["point_count"], ["points"] and ["format"],
    with [point_count = n], [format = "g1_slam_int16_12byte"], no
    ["intensities"], [n] points, and the coordinates of point [i] are the
    first three little-endian int16 fields of the [i]-th 12-byte record,
    each converted to float32 and divided by 1000.0; the last three
    fields of the record do not occur in the result. *)
Theorem decode_int16_layout (buf : bytes) (md : option (gmap string value))
    (n : nat) :
  (1 ≤ n)%nat → length buf = (12 * n)%nat →
  ∃ (r : gmap string value) (pts : list (list float32)),
    decode buf md = Ok r ∧
    r = {[ "point_count" := VInt (Z.of_nat n);
           "points" := VMat32 (Matrix 3 pts);
           "format" := VStr "g1_slam_int16_12byte" ]} ∧
    r !! "intensities" = None ∧
    length pts = n ∧
    ∀ (i : nat) (b0 b1 b2 b3 b4 b5 b6 b7 b8 b9 b10 b11 : byte),
      take 12 (drop (12 * i) buf) =
        [b0; b1; b2; b3; b4; b5; b6; b7; b8; b9; b10; b11] →
      pts !! i =
        Some [ Float32.div (Float32.of_int (int16_le b0 b1)) f32_1000;
               Float32.div (Float32.of_int (int16_le b2 b3)) f32_1000;
               Float32.div (Float32.of_int (int16_le b4 b5)) f32_1000 ].
Proof.
  intros Hn Hlen.
  destruct (decode_try_cases buf) as [[[H0|[H12 _]] _]|[(m & _ & Hm & Htry)|(m & _ & _ & H12 & _)]].
  - lia.
  - exfalso. apply H12. rewrite Hlen, Nat2Z.inj_mul.
    change (Z.of_nat 12) with 12. Z.div_mod_to_equations. lia.
  - eexists _, _. unfold decode. rewrite Htry.
    rewrite (_decode_int16_12byte_multiple buf n Hlen). simpl try_except.
    split_and!; [reflexivity | reflexivity | done | |].
    + cbn [rows astype_float32 slice_cols matrix_map].
      by rewrite !length_fmap, chunks_length.
    + intros i b0 b1 b2 b3 b4 b5 b6 b7 b8 b9 b10 b11 Hrec.
      pose proof (record_in_range buf 12 i _ Hrec eq_refl) as Hi.
      cbn [rows astype_float32 slice_cols matrix_map].
      rewrite !list_lookup_fmap, chunks_lookup by lia.
      by rewrite (int16_record _ _ _ Hrec).
  - exfalso. apply H12. rewrite Hlen, Nat2Z.inj_mul.
    change (Z.of_nat 12) with 12. Z.div_mod_to_equations. lia.
Qed.

(** The int16 layout on the sample record [1000, 2000, -500, 0, 0, 0]. *)
Lemma decode_int16_layout_witness :
  ∃ (r : gmap string value) (pts : list (list float32)),
    decode sample_int16 None = Ok r ∧
    r = {[ "point_count" := VInt (Z.of_nat 1);
           "points" := VMat32 (Matrix 3 pts);
           "format" := VStr "g1_slam_int16_12byte" ]} ∧
    r !! "intensities" = None ∧
    length pts = 1%nat ∧
    ∀ (i : nat) (b0 b1 b2 b3 b4 b5 b6 b7 b8 b9 b10 b11 : byte),
      take 12 (drop (12 * i) sample_int16) =
        [b0; b1; b2; b3; b4; b5; b6; b7; b8; b9; b10; b11] →
      pts !! i =
        Some [ Float32.div (Float32.of_int (int16_le b0 b1)) f32_1000;
               Float32.div (Float32.of_int (int16_le b2 b3)) f32_1000;
               Float32.div (Float32.of_int (int16_le b4 b5)) f32_1000 ].
Proof.
  apply (decode_int16_layout sample_int16 None 1); [lia | reflexivity].
Defined.

(** C3. The float32 XYZ layout is never selected: the second test of
    [data_len % 12 == 0] can be deleted without changing [decode], and no
    result carries [format = "xyz_float32"]. *)
Theorem decode_never_xyz_float32 (buf : bytes) (md : option (gmap string value)) :
  decode_try buf =
    (let data_len := Z.of_nat (length buf) in
     if data_len =? 0
     then Ok {[ "point_count" := VInt 0; "points" := np_array_empty ]}
     else if data_len mod 12 =? 0 then _decode_int16_12byte buf
     else if data_len mod 16 =? 0 then _decode_xyzi_float32 buf
     else _decode_int16_12byte buf) ∧
  ∃ r : gmap string value,
    decode buf md = Ok r ∧ r !! "format" ≠ Some (VStr "xyz_float32").
Proof.
  split.
  - unfold decode_try. cbv zeta.
    destruct (Z.of_nat (length buf) =? 0); [done|].
    by destruct (Z.of_nat (length buf) mod 12 =? 0).
  - unfold decode.
    destruct (decode_try_cases buf)
      as [[_ ->]|[(n & _ & Hn & ->)|(n & _ & Hn & _ & ->)]].
    + eexists. split; [reflexivity | done].
    + rewrite (_decode_int16_12byte_multiple buf n Hn).
      eexists. split; [reflexivity | done].
    + rewrite (_decode_xyzi_float32_multiple buf n Hn).
      eexists. split; [reflexivity | done].
Qed.

(** When it is called on its own, the float32 XYZ decoder does tag its
    result: the tag is absent from [decode] only because of the order of
    the tests. *)
Lemma _decode_xyz_float32_multiple (buf : bytes) (n : nat) :
  length buf = (12 * n)%nat →
  _decode_xyz_float32 buf =
  Ok {[ "point_count" := VInt (Z.of_nat n);
        "points" := VMat32 (Matrix 3 (chunks 3 n (float32_items buf)));
        "format" := VStr "xyz_float32" ]}.
Proof.
  intros Hlen. unfold _decode_xyz_float32.
  assert (Z.of_nat (length buf) = 12 * Z.of_nat n) as HZ by lia.
  assert (Z.of_nat (length buf) / 12 = Z.of_nat n) as ->
    by (rewrite HZ; Z.div_mod_to_equations; lia).
  rewrite frombuffer_float32_aligned
    by (rewrite HZ; Z.div_mod_to_equations; lia).
  rewrite bind_Ok.
  change 3 with (Z.of_nat 3).
  rewrite reshape_exact
    by (rewrite (float32_items_length (3 * n)); lia).
  by rewrite bind_Ok.
Qed.

(** C4. In every result of [decode], [len(points) == point_count], and
    when ["intensities"] is present its length is [point_count] too. *)
Theorem decode_lengths (buf : bytes) (md : option (gmap string value)) :
  ∃ (r : gmap string value) (n : Z) (pts : value),
    decode buf md = Ok r ∧
    r !! "point_count" = Some (VInt n) ∧
    r !! "points" = Some pts ∧
    len pts = Some n ∧
    (r !! "intensities" = None ∨
     ∃ ints : value, r !! "intensities" = Some ints ∧ len ints = Some n).
Proof.
  unfold decode.
  destruct (decode_try_cases buf)
    as [[_ ->]|[(n & _ & Hn & ->)|(n & _ & Hn & _ & ->)]].
  - eexists _, _, _. split_and!; [reflexivity | done | done | done | by left].
  - rewrite (_decode_int16_12byte_multiple buf n Hn).
    eexists _, _, _. split_and!; [reflexivity | done | done | | by left].
    cbn [len rows truediv astype_float32 slice_cols matrix_map].
    by rewrite !length_fmap, chunks_length.
  - rewrite (_decode_xyzi_float32_multiple buf n Hn).
    eexists _, _, _. split_and!; [reflexivity | done | done | | right].
    + cbn [len rows slice_cols]. by rewrite !length_fmap, chunks_length.
    + eexists. split; [done|]. cbn [len].
      rewrite omap_lookup_length, chunks_length; [done|].
      eapply Forall_impl.
      * apply chunks_row_length. rewrite (float32_items_length (4 * n)); lia.
      * intros row ->. simpl. lia.
Qed.

(** C5. For every buffer whose length is [16 * n] and not a multiple of
    12, [decode] returns [point_count = n], [format = "xyzi_float32"],
    [n] points and [n] intensities; point [i] is the first three
    little-endian float32 fields of the [i]-th 16-byte record and
    intensity [i] is its fourth field, all bit for bit as stored. *)
Theorem decode_xyzi_layout (buf : bytes) (md : option (gmap string value))
    (n : nat) :
  length buf = (16 * n)%nat → Z.of_nat (length buf) mod 12 ≠ 0 →
  ∃ (r : gmap string value) (pts : list (list float32)) (ints : list float32),
    decode buf md = Ok r ∧
    r = {[ "point_count" := VInt (Z.of_nat n);
           "points" := VMat32 (Matrix 3 pts);
           "intensities" := VVec32 ints;
           "format" := VStr "xyzi_float32" ]} ∧
    length pts = n ∧
    length ints = n ∧
    ∀ (i : nat) (b0 b1 b2 b3 b4 b5 b6 b7 b8 b9 b10 b11 b12 b13 b14 b15 : byte),
      take 16 (drop (16 * i) buf) =
        [b0; b1; b2; b3; b4; b5; b6; b7; b8; b9; b10; b11; b12; b13; b14; b15] →
      pts !! i = Some [ float32_le b0 b1 b2 b3;
                        float32_le b4 b5 b6 b7;
                        float32_le b8 b9 b10 b11 ] ∧
      ints !! i = Some (float32_le b12 b13 b14 b15).
Proof.
  intros Hlen H12.
  assert (Forall (λ row : list float32, 3 < length row)%nat
            (chunks 4 n (float32_items buf))) as Hrows.
  { eapply Forall_impl.
    - apply chunks_row_length. rewrite (float32_items_length (4 * n)); lia.
    - intros row ->. simpl. lia. }
  destruct (decode_try_cases buf)
    as [[[H0|[_ H16]] _]|[(m & _ & Hm & _)|(m & _ & _ & _ & Htry)]].
  - exfalso. apply H12. by rewrite H0.
  - exfalso. apply H16. rewrite Hlen, Nat2Z.inj_mul.
    change (Z.of_nat 16) with 16. Z.div_mod_to_equations. lia.
  - exfalso. apply H12. rewrite Hm, Nat2Z.inj_mul.
    change (Z.of_nat 12) with 12. Z.div_mod_to_equations. lia.
  - eexists _, _, _. unfold decode. rewrite Htry.
    rewrite (_decode_xyzi_float32_multiple buf n Hlen). simpl try_except.
    split_and!; [reflexivity | reflexivity | | |].
    + cbn [rows slice_cols]. by rewrite length_fmap, chunks_length.
    + by rewrite omap_lookup_length, chunks_length.
    + intros i b0 b1 b2 b3 b4 b5 b6 b7 b8 b9 b10 b11 b12 b13 b14 b15 Hrec.
      pose proof (record_in_range buf 16 i _ Hrec eq_refl) as Hi.
      cbn [rows slice_cols].
      rewrite list_lookup_fmap, omap_lookup_lookup by done.
      rewrite chunks_lookup by lia.
      by rewrite (float32_record _ _ _ Hrec).
Qed.

(** The XYZI layout on the sample record [1.5, 2.5, 3.5, 0.9]. *)
Lemma decode_xyzi_layout_witness :
  ∃ (r : gmap string value) (pts : list (list float32)) (ints : list float32),
    decode sample_xyzi None = Ok r ∧
    r = {[ "point_count" := VInt (Z.of_nat 1);
           "points" := VMat32 (Matrix 3 pts);
           "intensities" := VVec32 ints;
           "format" := VStr "xyzi_float32" ]} ∧
    length pts = 1%nat ∧
    length ints = 1%nat ∧
    ∀ (i : nat) (b0 b1 b2 b3 b4 b5 b6 b7 b8 b9 b10 b11 b12 b13 b14 b15 : byte),
      take 16 (drop (16 * i) sample_xyzi) =
        [b0; b1; b2; b3; b4; b5; b6; b7; b8; b9; b10; b11; b12; b13; b14; b15] →
      pts !! i = Some [ float32_le b0 b1 b2 b3;
                        float32_le b4 b5 b6 b7;
                        float32_le b8 b9 b10 b11 ] ∧
      ints !! i = Some (float32_le b12 b13 b14 b15).
Proof.
  apply (decode_xyzi_layout sample_xyzi None 1); [reflexivity | by vm_compute].
Defined.

(** C6. For every buffer whose length is divisible by neither 12 nor 16,
    [decode] reaches the final fall-back call of [_decode_int16_12byte],
    whose own length test fails, and returns [point_count = 0] with empty
    points, without an ["error"] and without a ["format"]. *)
Theorem decode_fallback_guard (buf : bytes) (md : option (gmap string value)) :
  Z.of_nat (length buf) mod 12 ≠ 0 → Z.of_nat (length buf) mod 16 ≠ 0 →
  ∃ r : gmap string value,
    decode_try buf = _decode_int16_12byte buf ∧
    decode buf md = Ok r ∧
    r = {[ "point_count" := VInt 0; "points" := np_array_empty ]} ∧
    len np_array_empty = Some 0 ∧
    r !! "error" = None ∧
    r !! "format" = None.
Proof.
  intros H12 H16.
  assert (decode_try buf = _decode_int16_12byte buf) as Htry.
  { unfold decode_try.
    destruct (Z.eqb_spec (Z.of_nat (length buf)) 0) as [H0|_].
    { exfalso. apply H12. by rewrite H0. }
    by rewrite (proj2 (Z.eqb_neq _ _) H12), (proj2 (Z.eqb_neq _ _) H16). }
  eexists. unfold decode. rewrite Htry, (_decode_int16_12byte_guard buf H12).
  split_and!; [done | reflexivity | done..].
Qed.

(** The fall-back on a 13-byte buffer. *)
Lemma decode_fallback_guard_witness :
  ∃ r : gmap string value,
    decode_try sample_13 = _decode_int16_12byte sample_13 ∧
    decode sample_13 None = Ok r ∧
    r = {[ "point_count" := VInt 0; "points" := np_array_empty ]} ∧
    len np_array_empty = Some 0 ∧
    r !! "error" = None ∧
    r !! "format" = None.
Proof.
  apply (decode_fallback_guard sample_13 None); by vm_compute.
Defined.

(** C7. For the zero-length buffer, [decode] returns [point_count = 0]
    and empty points, with neither ["error"] nor ["format"]. *)
Theorem decode_empty_buffer (md : option (gmap string value)) :
  ∃ r : gmap string value,
    decode [] md = Ok r ∧
    r = {[ "point_count" := VInt 0; "points" := np_array_empty ]} ∧
    len np_array_empty = Some 0 ∧
    r !! "error" = None ∧
    r !! "format" = None.
Proof. eexists. split_and!; [reflexivity | done..]. Qed.

(** C10. The handler of [decode] is never entered: for every buffer the
    [try] block returns normally, [decode] returns that same value, and
    the value has no ["error"] field. *)
Theorem decode_handler_unreachable (buf : bytes)
    (md : option (gmap string value)) :
  ∃ r : gmap string value,
    decode_try buf = Ok r ∧ decode buf md = Ok r ∧ r !! "error" = None.
Proof.
  unfold decode.
  destruct (decode_try_cases buf)
    as [[_ ->]|[(n & _ & Hn & ->)|(n & _ & Hn & _ & ->)]].
  - eexists. split_and!; [reflexivity | done | done].
  - rewrite (_decode_int16_12byte_multiple buf n Hn).
    eexists. split_and!; [reflexivity | done | done].
  - rewrite (_decode_xyzi_float32_multiple buf n Hn).
    eexists. split_and!; [reflexivity | done | done].
Qed.

(** ** Further properties of the decoders *)

Lemma length_multiple (buf : bytes) (k : nat) :
  (0 < k)%nat → Z.of_nat (length buf) mod Z.of_nat k = 0 →
  length buf = (k * (length buf / k))%nat.
Proof.
  intros Hk Hmod. apply Nat2Z.inj. rewrite Nat2Z.inj_mul, Nat2Z.inj_div.
  Z.div_mod_to_equations. lia.
Qed.

Lemma frombuffer_float32_misaligned (buf : bytes) :
  Z.of_nat (length buf) mod 4 ≠ 0 →
  frombuffer_float32 buf = Raise buffer_size_error.
Proof.
  intros H. unfold frombuffer_float32. by rewrite (proj2 (Z.eqb_neq _ _) H).
Qed.

Lemma reshape_mismatch_raises {A : Type} (xs : list A) (r c : Z) :
  r * c ≠ Z.of_nat (length xs) →
  reshape xs (r, c) = Raise (reshape_error (length xs) r c).
Proof.
  intros H. unfold reshape. rewrite (proj2 (Z.eqb_neq _ _) H).
  by rewrite andb_false_r.
Qed.

(** X1. [_decode_int16_12byte] never raises, whatever the buffer: on a
    length that is a multiple of 12 (zero included) it returns the tagged
    result with [point_count = len // 12], and on any other length its
    guard returns the untagged empty result. *)
Theorem _decode_int16_12byte_total (buf : bytes) :
  ∃ r : gmap string value,
    _decode_int16_12byte buf = Ok r ∧
    r !! "error" = None ∧
    ((Z.of_nat (length buf) mod 12 = 0 ∧
      r !! "format" = Some (VStr "g1_slam_int16_12byte") ∧
      r !! "point_count" = Some (VInt (Z.of_nat (length buf) / 12)))
     ∨
     (Z.of_nat (length buf) mod 12 ≠ 0 ∧
      r = {[ "point_count" := VInt 0; "points" := np_array_empty ]})).
Proof.
  destruct (decide (Z.of_nat (length buf) mod 12 = 0)) as [H12|H12].
  - pose proof (length_multiple buf 12 ltac:(lia) H12) as Hn.
    rewrite (_decode_int16_12byte_multiple buf _ Hn).
    eexists. split_and!; [reflexivity | done |]. left.
    split_and!; [done | done |].
    rewrite Nat2Z.inj_div. done.
  - rewrite (_decode_int16_12byte_guard buf H12).
    eexists. split_and!; [reflexivity | done |]. right. done.
Qed.

(** X2. [_decode_xyzi_float32] has no guard of its own: it returns
    normally exactly on lengths that are multiples of 16; on a length that
    is not a multiple of 4 it raises the [frombuffer] error, and on a
    multiple of 4 that is not a multiple of 16 the [reshape] error. *)
Theorem _decode_xyzi_float32_outcome (buf : bytes) :
  let data_len := Z.of_nat (length buf) in
  (data_len mod 16 = 0 ∧
   ∃ r : gmap string value,
     _decode_xyzi_float32 buf = Ok r ∧
     r !! "format" = Some (VStr "xyzi_float32") ∧
     r !! "point_count" = Some (VInt (data_len / 16)))
  ∨ (data_len mod 4 ≠ 0 ∧
     _decode_xyzi_float32 buf = Raise buffer_size_error)
  ∨ (data_len mod 4 = 0 ∧ data_len mod 16 ≠ 0 ∧
     _decode_xyzi_float32 buf =
       Raise (reshape_error (length buf / 4) (data_len / 16) 4)).
Proof.
  cbv zeta.
  destruct (decide (Z.of_nat (length buf) mod 16 = 0)) as [H16|H16].
  - left. split; [done|].
    pose proof (length_multiple buf 16 ltac:(lia) H16) as Hn.
    rewrite (_decode_xyzi_float32_multiple buf _ Hn).
    eexists. split_and!; [reflexivity | done |].
    by rewrite Nat2Z.inj_div.
  - right. destruct (decide (Z.of_nat (length buf) mod 4 = 0)) as [H4|H4].
    + right. split_and!; [done | done |].
      pose proof (length_multiple buf 4 ltac:(lia) H4) as Hn.
      unfold _decode_xyzi_float32.
      rewrite frombuffer_float32_aligned, bind_Ok by done.
      rewrite reshape_mismatch_raises.
      * by rewrite (float32_items_length (length buf / 4)) by lia.
      * rewrite (float32_items_length (length buf / 4)) by lia.
        rewrite Nat2Z.inj_div. change (Z.of_nat 4) with 4.
        Z.div_mod_to_equations. lia.
    + left. split; [done|]. unfold _decode_xyzi_float32.
      by rewrite frombuffer_float32_misaligned.
Qed.

(** X3. [_decode_xyz_float32] likewise returns normally exactly on
    lengths that are multiples of 12, and raises the [frombuffer] or the
    [reshape] error on every other length. *)
Theorem _decode_xyz_float32_outcome (buf : bytes) :
  let data_len := Z.of_nat (length buf) in
  (data_len mod 12 = 0 ∧
   ∃ r : gmap string value,
     _decode_xyz_float32 buf = Ok r ∧
     r !! "format" = Some (VStr "xyz_float32") ∧
     r !! "point_count" = Some (VInt (data_len / 12)) ∧
     r !! "intensities" = None)
  ∨ (data_len mod 4 ≠ 0 ∧
     _decode_xyz_float32 buf = Raise buffer_size_error)
  ∨ (data_len mod 4 = 0 ∧ data_len mod 12 ≠ 0 ∧
     _decode_xyz_float32 buf =
       Raise (reshape_error (length buf / 4) (data_len / 12) 3)).
Proof.
  cbv zeta.
  destruct (decide (Z.of_nat (length buf) mod 12 = 0)) as [H12|H12].
  - left. split; [done|].
    pose proof (length_multiple buf 12 ltac:(lia) H12) as Hn.
    rewrite (_decode_xyz_float32_multiple buf _ Hn).
    eexists. split_and!; [reflexivity | done | | done].
    by rewrite Nat2Z.inj_div.
  - right. destruct (decide (Z.of_nat (length buf) mod 4 = 0)) as [H4|H4].
    + right. split_and!; [done | done |].
      pose proof (length_multiple buf 4 ltac:(lia) H4) as Hn.
      unfold _decode_xyz_float32.
      rewrite frombuffer_float32_aligned, bind_Ok by done.
      rewrite reshape_mismatch_raises.
      * by rewrite (float32_items_length (length buf / 4)) by lia.
      * rewrite (float32_items_length (length buf / 4)) by lia.
        rewrite Nat2Z.inj_div. change (Z.of_nat 4) with 4.
        Z.div_mod_to_equations. lia.
    + left. split; [done|]. unfold _decode_xyz_float32.
      by rewrite frombuffer_float32_misaligned.
Qed.

(** What [decode] returns in each of the three classes of lengths. *)
Lemma decode_cases (buf : bytes) (md : option (gmap string value)) :
  ((length buf = 0%nat ∨
    (Z.of_nat (length buf) mod 12 ≠ 0 ∧ Z.of_nat (length buf) mod 16 ≠ 0)) ∧
   decode buf md =
   Ok {[ "point_count" := VInt 0; "points" := np_array_empty ]})
  ∨ (∃ n : nat, (1 ≤ n)%nat ∧ length buf = (12 * n)%nat ∧
     decode buf md =
     Ok {[ "point_count" := VInt (Z.of_nat n);
           "points" := VMat32 (truediv (astype_float32 (slice_cols 3
                         (Matrix 6 (chunks 6 n (int16_items buf))))) f32_1000);
           "format" := VStr "g1_slam_int16_12byte" ]})
  ∨ (∃ n : nat, (1 ≤ n)%nat ∧ length buf = (16 * n)%nat ∧
     Z.of_nat (length buf) mod 12 ≠ 0 ∧
     decode buf md =
     Ok {[ "point_count" := VInt (Z.of_nat n);
           "points" := VMat32 (slice_cols 3
                         (Matrix 4 (chunks 4 n (float32_items buf))));
           "intensities" := VVec32 (omap (λ row, row !! 3%nat)
                         (chunks 4 n (float32_items buf)));
           "format" := VStr "xyzi_float32" ]}).
Proof.
  unfold decode.
  destruct (decode_try_cases buf)
    as [[H ->]|[(n & H1 & Hn & ->)|(n & H1 & Hn & H12 & ->)]].
  - left. by split.
  - right; left. exists n. split_and!; [done..|].
    by rewrite (_decode_int16_12byte_multiple buf n Hn).
  - right; right. exists n. split_and!; [done..|].
    by rewrite (_decode_xyzi_float32_multiple buf n Hn).
Qed.

(** [decode] on a non-empty buffer of whole 12-byte records. *)
Lemma decode_int16_multiple (buf : bytes) (md : option (gmap string value))
    (n : nat) :
  (1 ≤ n)%nat → length buf = (12 * n)%nat →
  decode buf md =
  Ok {[ "point_count" := VInt (Z.of_nat n);
        "points" := VMat32 (truediv (astype_float32 (slice_cols 3
                      (Matrix 6 (chunks 6 n (int16_items buf))))) f32_1000);
        "format" := VStr "g1_slam_int16_12byte" ]}.
Proof.
  intros Hn Hlen. unfold decode, decode_try.
  assert (Z.of_nat (length buf) mod 12 = 0) as H12
    by (rewrite Hlen, Nat2Z.inj_mul; change (Z.of_nat 12) with 12;
        Z.div_mod_to_equations; lia).
  rewrite H12, (proj2 (Z.eqb_neq _ _)) by lia. simpl.
  by rewrite (_decode_int16_12byte_multiple buf n Hlen).
Qed.

(** X4. The keys of the dictionary [decode] returns depend on the length
    alone: ["point_count"] and ["points"] always; ["format"] as well when
    the buffer is not empty and its length is a multiple of 12; all of
    these and ["intensities"] when the length is a multiple of 16 and not
    of 12. ["error"] is in none of them. *)
Theorem decode_keys (buf : bytes) (md : option (gmap string value)) :
  let data_len := Z.of_nat (length buf) in
  ∃ r : gmap string value,
    decode buf md = Ok r ∧
    (((data_len = 0 ∨ (data_len mod 12 ≠ 0 ∧ data_len mod 16 ≠ 0)) ∧
      dom r = {[ "point_count"; "points" ]})
     ∨ (data_len ≠ 0 ∧ data_len mod 12 = 0 ∧
        dom r = {[ "point_count"; "points"; "format" ]})
     ∨ (data_len mod 12 ≠ 0 ∧ data_len mod 16 = 0 ∧
        dom r = {[ "point_count"; "points"; "intensities"; "format" ]})).
Proof.
  cbv zeta.
  destruct (decode_cases buf md)
    as [[H ->]|[(n & H1 & Hn & ->)|(n & H1 & Hn & H12 & ->)]];
    eexists; (split; [reflexivity|]).
  - left. split; [lia|]. rewrite !dom_insert_L, dom_singleton_L. set_solver.
  - right; left. split_and!; [lia | |].
    + rewrite Hn, Nat2Z.inj_mul. change (Z.of_nat 12) with 12.
      Z.div_mod_to_equations. lia.
    + rewrite !dom_insert_L, dom_singleton_L. set_solver.
  - right; right. split_and!; [done | |].
    + rewrite Hn, Nat2Z.inj_mul. change (Z.of_nat 16) with 16.
      Z.div_mod_to_equations. lia.
    + rewrite !dom_insert_L, dom_singleton_L. set_solver.
Qed.

(** X5. Decoding is all or nothing: the reported [point_count] is either
    0, or the whole buffer split into 12-byte records, or the whole buffer
    split into 16-byte records. In particular [decode] never reports more
    points than [len(buffer) // 12]. *)
Theorem decode_point_count_exact (buf : bytes)
    (md : option (gmap string value)) :
  ∃ (r : gmap string value) (n : Z),
    decode buf md = Ok r ∧
    r !! "point_count" = Some (VInt n) ∧
    (n = 0 ∨ 12 * n = Z.of_nat (length buf) ∨ 16 * n = Z.of_nat (length buf)) ∧
    0 ≤ n ≤ Z.of_nat (length buf) / 12.
Proof.
  destruct (decode_cases buf md)
    as [[H ->]|[(n & H1 & Hn & ->)|(n & H1 & Hn & H12 & ->)]];
    eexists _, _; (split; [reflexivity|]); (split; [done|]).
  - split; [by left|]. Z.div_mod_to_equations. lia.
  - split; [right; left; lia|]. Z.div_mod_to_equations. lia.
  - split; [right; right; lia|]. Z.div_mod_to_equations. lia.
Qed.

Lemma _decode_int16_12byte_returns (buf : bytes) :
  ∃ r : gmap string value, _decode_int16_12byte buf = Ok r.
Proof.
  destruct (decide (Z.of_nat (length buf) mod 12 = 0)) as [H12|H12].
  - assert (length buf = (12 * (length buf / 12))%nat) as Hn.
    { apply Nat2Z.inj. rewrite Nat2Z.inj_mul, Nat2Z.inj_div.
      change (Z.of_nat 12) with 12. Z.div_mod_to_equations. lia. }
    rewrite (_decode_int16_12byte_multiple buf _ Hn). by eexists.
  - rewrite (_decode_int16_12byte_guard buf H12). by eexists.
Qed.

(** X6. On every non-empty buffer whose length is a multiple of 12 or not
    a multiple of 16, [decode] returns exactly what a direct call of
    [_decode_int16_12byte] returns. *)
Theorem decode_is_int16_decoder (buf : bytes)
    (md : option (gmap string value)) :
  buf ≠ [] →
  Z.of_nat (length buf) mod 12 = 0 ∨ Z.of_nat (length buf) mod 16 ≠ 0 →
  decode buf md = _decode_int16_12byte buf.
Proof.
  intros Hne Hlen.
  assert (Z.of_nat (length buf) ≠ 0) as H0 by (destruct buf; simpl; [done|lia]).
  destruct (_decode_int16_12byte_returns buf) as (r & Hr).
  unfold decode, decode_try. rewrite (proj2 (Z.eqb_neq _ _) H0).
  destruct (Z.eqb_spec (Z.of_nat (length buf) mod 12) 0) as [H12|H12].
  - by rewrite Hr.
  - destruct Hlen as [?|H16]; [done|].
    rewrite (proj2 (Z.eqb_neq _ _) H16). by rewrite Hr.
Qed.

Lemma decode_is_int16_decoder_witness :
  decode sample_13 None = _decode_int16_12byte sample_13.
Proof.
  apply (decode_is_int16_decoder sample_13 None); [done | right; by vm_compute].
Defined.

(** X7. Whenever [decode] returns a two-dimensional [points] array, the
    array has shape [(point_count, 3)]: every point has exactly three
    coordinates. Otherwise [points] is the empty [np.array([])]. *)
Theorem decode_points_shape (buf : bytes) (md : option (gmap string value)) :
  ∃ r : gmap string value,
    decode buf md = Ok r ∧
    (r !! "points" = Some np_array_empty ∨
     ∃ m : matrix float32,
       r !! "points" = Some (VMat32 m) ∧
       r !! "point_count" = Some (VInt (Z.of_nat (length (rows m)))) ∧
       ncols m = 3%nat ∧
       Forall (λ row, length row = 3%nat) (rows m)).
Proof.
  destruct (decode_cases buf md)
    as [[H ->]|[(n & H1 & Hn & ->)|(n & H1 & Hn & H12 & ->)]];
    eexists; (split; [reflexivity|]).
  - by left.
  - right. eexists. split; [done|].
    cbn [rows ncols truediv astype_float32 slice_cols matrix_map].
    split_and!; [|done|].
    + by rewrite !length_fmap, chunks_length.
    + rewrite !Forall_fmap. eapply Forall_impl.
      * apply chunks_row_length. rewrite (int16_items_length (6 * n)); lia.
      * intros row Hrow. simpl in *. rewrite !length_fmap, length_take. lia.
  - right. eexists. split; [done|]. cbn [rows ncols slice_cols].
    split_and!; [|done|].
    + by rewrite !length_fmap, chunks_length.
    + rewrite !Forall_fmap. eapply Forall_impl.
      * apply chunks_row_length. rewrite (float32_items_length (4 * n)); lia.
      * intros row Hrow. simpl in *. rewrite length_take. lia.
Qed.

Lemma float32_record3 (buf : bytes) (i : nat) (record : bytes) :
  take 12 (drop (12 * i) buf) = record →
  take 3 (drop (i * 3) (float32_items buf)) = float32_items record.
Proof.
  intros <-. rewrite float32_items_drop, float32_items_take.
  by replace (4 * (i * 3))%nat with (12 * i)%nat by lia.
Qed.

(** X8. Called on its own with a buffer of length [12 * n],
    [_decode_xyz_float32] returns [n] points tagged ["xyz_float32"]; point
    [i] is the three little-endian float32 fields of the [i]-th 12-byte
    record, bit for bit. *)
Theorem _decode_xyz_float32_layout (buf : bytes) (n : nat) :
  length buf = (12 * n)%nat →
  ∃ pts : list (list float32),
    _decode_xyz_float32 buf =
      Ok {[ "point_count" := VInt (Z.of_nat n);
            "points" := VMat32 (Matrix 3 pts);
            "format" := VStr "xyz_float32" ]} ∧
    length pts = n ∧
    ∀ (i : nat) (b0 b1 b2 b3 b4 b5 b6 b7 b8 b9 b10 b11 : byte),
      take 12 (drop (12 * i) buf) =
        [b0; b1; b2; b3; b4; b5; b6; b7; b8; b9; b10; b11] →
      pts !! i = Some [ float32_le b0 b1 b2 b3;
                        float32_le b4 b5 b6 b7;
                        float32_le b8 b9 b10 b11 ].
Proof.
  intros Hlen. rewrite (_decode_xyz_float32_multiple buf n Hlen).
  eexists. split_and!; [reflexivity | apply chunks_length |].
  intros i b0 b1 b2 b3 b4 b5 b6 b7 b8 b9 b10 b11 Hrec.
  pose proof (record_in_range buf 12 i _ Hrec eq_refl) as Hi.
  rewrite chunks_lookup by lia.
  by rewrite (float32_record3 _ _ _ Hrec).
Qed.

Lemma _decode_xyz_float32_layout_witness :
  ∃ pts : list (list float32),
    _decode_xyz_float32 sample_int16 =
      Ok {[ "point_count" := VInt (Z.of_nat 1);
            "points" := VMat32 (Matrix 3 pts);
            "format" := VStr "xyz_float32" ]} ∧
    length pts = 1%nat ∧
    ∀ (i : nat) (b0 b1 b2 b3 b4 b5 b6 b7 b8 b9 b10 b11 : byte),
      take 12 (drop (12 * i) sample_int16) =
        [b0; b1; b2; b3; b4; b5; b6; b7; b8; b9; b10; b11] →
      pts !! i = Some [ float32_le b0 b1 b2 b3;
                        float32_le b4 b5 b6 b7;
                        float32_le b8 b9 b10 b11 ].
Proof. apply (_decode_xyz_float32_layout sample_int16 1). reflexivity. Defined.

Lemma int16_xyz_fields (buf : bytes) (i : nat) :
  take 3 (take 6 (drop (i * 6) (int16_items buf))) =
  int16_items (take 6 (drop (12 * i) buf)).
Proof.
  rewrite take_take. change (3 `min` 6)%nat with 3%nat.
  rewrite int16_items_drop, int16_items_take.
  by replace (2 * (i * 6))%nat with (12 * i)%nat by lia.
Qed.

(** X9. In the int16 layout the last six bytes of every record are
    ignored: two buffers of the same length [12 * n] that agree on the
    first six bytes of each record decode to the same dictionary. *)
Theorem decode_int16_ignores_padding (buf1 buf2 : bytes)
    (md : option (gmap string value)) (n : nat) :
  (1 ≤ n)%nat → length buf1 = (12 * n)%nat → length buf2 = (12 * n)%nat →
  (∀ i : nat, (i < n)%nat →
     take 6 (drop (12 * i) buf1) = take 6 (drop (12 * i) buf2)) →
  decode buf1 md = decode buf2 md.
Proof.
  intros Hn H1 H2 Hagree.
  rewrite (decode_int16_multiple buf1 md n Hn H1).
  rewrite (decode_int16_multiple buf2 md n Hn H2).
  do 4 f_equal. unfold truediv, astype_float32, slice_cols, matrix_map.
  cbn [rows ncols]. do 3 f_equal.
  apply list_eq. intros i. rewrite !list_lookup_fmap.
  destruct (decide (i < n)%nat) as [Hi|Hi].
  - rewrite !chunks_lookup by done. simpl.
    by rewrite !int16_xyz_fields, Hagree.
  - by rewrite !(lookup_ge_None_2 (chunks _ _ _)) by (rewrite chunks_length; lia).
Qed.

(** ** Little-endian reading, arithmetically *)

Lemma lor_disjoint_add (a c n : Z) :
  0 ≤ n → 0 ≤ a < 2 ^ n → Z.lor a (c * 2 ^ n) = a + c * 2 ^ n.
Proof.
  intros Hn Ha. pose proof (Z.add_lor_land a (c * 2 ^ n)) as Hsum.
  assert (Z.land a (c * 2 ^ n) = 0) as Hland; [|lia].
  apply Z.bits_inj'. intros i Hi. rewrite Z.land_spec, Z.bits_0.
  destruct (Z.lt_ge_cases i n) as [Hlt|Hge].
  - by rewrite Z.mul_pow2_bits_low, andb_false_r.
  - assert (Z.testbit a i = false) as ->; [|done].
    apply Z.testbit_false; [done|].
    assert (2 ^ n ≤ 2 ^ i) by (apply Z.pow_le_mono_r; lia).
    by rewrite Z.div_small by lia.
Qed.

Lemma byte_val_inj (b c : byte) : byte_val b = byte_val c → b = c.
Proof.
  unfold byte_val. intros H. apply N2Z.inj in H.
  pose proof (Byte.of_to_N b) as Hb. pose proof (Byte.of_to_N c) as Hc.
  rewrite H in Hb. congruence.
Qed.

Lemma float32_le_bits (b0 b1 b2 b3 : byte) :
  f32_bits (float32_le b0 b1 b2 b3) =
  byte_val b0 + 256 * byte_val b1 + 65536 * byte_val b2 +
  16777216 * byte_val b3.
Proof.
  pose proof (byte_val_range b0). pose proof (byte_val_range b1).
  pose proof (byte_val_range b2). pose proof (byte_val_range b3).
  unfold float32_le. cbn [f32_bits]. rewrite !Z.shiftl_mul_pow2 by lia.
  rewrite (lor_disjoint_add (byte_val b2 * 2 ^ 16) (byte_val b3) 24) by lia.
  replace (byte_val b2 * 2 ^ 16 + byte_val b3 * 2 ^ 24)
    with ((byte_val b2 + byte_val b3 * 256) * 2 ^ 16) by lia.
  rewrite (lor_disjoint_add (byte_val b1 * 2 ^ 8) _ 16) by lia.
  replace (byte_val b1 * 2 ^ 8 + (byte_val b2 + byte_val b3 * 256) * 2 ^ 16)
    with ((byte_val b1 + (byte_val b2 + byte_val b3 * 256) * 256) * 2 ^ 8)
    by lia.
  rewrite (lor_disjoint_add (byte_val b0) _ 8) by lia. lia.
Qed.

Lemma float32_le_inj (b0 b1 b2 b3 c0 c1 c2 c3 : byte) :
  float32_le b0 b1 b2 b3 = float32_le c0 c1 c2 c3 →
  b0 = c0 ∧ b1 = c1 ∧ b2 = c2 ∧ b3 = c3.
Proof.
  intros H. apply (f_equal f32_bits) in H. rewrite !float32_le_bits in H.
  pose proof (byte_val_range b0). pose proof (byte_val_range b1).
  pose proof (byte_val_range b2). pose proof (byte_val_range b3).
  pose proof (byte_val_range c0). pose proof (byte_val_range c1).
  pose proof (byte_val_range c2). pose proof (byte_val_range c3).
  split_and!; apply byte_val_inj; lia.
Qed.

Lemma int16_le_unsigned (b0 b1 : byte) :
  int16_le b0 b1 =
  if 128 <=? byte_val b1
  then byte_val b0 + 256 * byte_val b1 - 65536
  else byte_val b0 + 256 * byte_val b1.
Proof.
  pose proof (byte_val_range b0). pose proof (byte_val_range b1).
  unfold int16_le. rewrite Z.shiftl_mul_pow2 by lia.
  rewrite (lor_disjoint_add (byte_val b0) _ 8) by lia. cbv zeta.
  destruct (Z.leb_spec 32768 (byte_val b0 + byte_val b1 * 2 ^ 8)),
           (Z.leb_spec 128 (byte_val b1)); lia.
Qed.

Lemma int16_le_inj (b0 b1 c0 c1 : byte) :
  int16_le b0 b1 = int16_le c0 c1 → b0 = c0 ∧ b1 = c1.
Proof.
  rewrite !int16_le_unsigned. intros H.
  pose proof (byte_val_range b0). pose proof (byte_val_range b1).
  pose proof (byte_val_range c0). pose proof (byte_val_range c1).
  destruct (Z.leb_spec 128 (byte_val b1)), (Z.leb_spec 128 (byte_val c1));
    split; apply byte_val_inj; lia.
Qed.

Lemma float32_items_inj (k : nat) (buf1 buf2 : bytes) :
  length buf1 = (4 * k)%nat → length buf2 = (4 * k)%nat →
  float32_items buf1 = float32_items buf2 → buf1 = buf2.
Proof.
  revert buf1 buf2. induction k as [|k IH]; intros buf1 buf2 H1 H2 Heq.
  - destruct buf1, buf2; simpl in *; done || lia.
  - destruct buf1 as [|a0 [|a1 [|a2 [|a3 r1]]]]; simpl in H1; try lia.
    destruct buf2 as [|c0 [|c1 [|c2 [|c3 r2]]]]; simpl in H2; try lia.
    cbn [float32_items] in Heq.
    pose proof (f_equal (hd (F32 0)) Heq) as Hhd.
    pose proof (f_equal (@tl float32) Heq) as Htl. cbn [hd tl] in Hhd, Htl.
    apply float32_le_inj in Hhd as (-> & -> & -> & ->).
    do 4 f_equal. apply IH; [lia | lia | done].
Qed.

Lemma chunks_concat {A : Type} (c n : nat) (xs : list A) :
  length xs = (n * c)%nat → concat (chunks c n xs) = xs.
Proof.
  revert xs. induction n as [|n IH]; intros xs Hlen; simpl.
  - by destruct xs.
  - rewrite IH by (rewrite length_drop; lia). apply take_drop.
Qed.

Lemma rows_from_xyz_and_intensity {A : Type} (rs1 rs2 : list (list A)) :
  Forall (λ row, length row = 4%nat) rs1 →
  Forall (λ row, length row = 4%nat) rs2 →
  take 3 <$> rs1 = take 3 <$> rs2 →
  omap (λ row, row !! 3%nat) rs1 = omap (λ row, row !! 3%nat) rs2 →
  rs1 = rs2.
Proof.
  intros H1. revert rs2. induction H1 as [|row1 rs1 Hrow1 _ IH];
    intros rs2 H2 Hxyz Hint.
  - by destruct rs2.
  - destruct H2 as [|row2 rs2 Hrow2 H2]; [done|].
    destruct row1 as [|x1 [|y1 [|z1 [|i1 [|]]]]]; try done.
    destruct row2 as [|x2 [|y2 [|z2 [|i2 [|]]]]]; try done.
    simpl in Hxyz, Hint. injection Hxyz as -> -> -> Hxyz.
    injection Hint as -> Hint. f_equal. by apply IH.
Qed.

Lemma Ok_inj {A : Type} (a b : A) : Ok a = Ok b → a = b.
Proof. by intros [= ->]. Qed.

(** X10. The XYZI layout loses nothing: two buffers whose lengths are
    multiples of 16 and not of 12, and which [decode] maps to the same
    dictionary, are the same buffer. *)
Theorem decode_xyzi_injective (buf1 buf2 : bytes)
    (md1 md2 : option (gmap string value)) :
  Z.of_nat (length buf1) mod 16 = 0 → Z.of_nat (length buf1) mod 12 ≠ 0 →
  Z.of_nat (length buf2) mod 16 = 0 → Z.of_nat (length buf2) mod 12 ≠ 0 →
  decode buf1 md1 = decode buf2 md2 → buf1 = buf2.
Proof.
  intros Ha16 Ha12 Hb16 Hb12.
  destruct (decode_cases buf1 md1)
    as [[[H|[_ H]] _]|[(n1 & _ & H & _)|(n1 & _ & Hn1 & _ & ->)]];
    [ by rewrite H in Ha12 | done | | ].
  { exfalso. apply Ha12. rewrite H, Nat2Z.inj_mul.
    change (Z.of_nat 12) with 12. Z.div_mod_to_equations. lia. }
  destruct (decode_cases buf2 md2)
    as [[[H|[_ H]] _]|[(n2 & _ & H & _)|(n2 & _ & Hn2 & _ & ->)]];
    [ by rewrite H in Hb12 | done | | ].
  { exfalso. apply Hb12. rewrite H, Nat2Z.inj_mul.
    change (Z.of_nat 12) with 12. Z.div_mod_to_equations. lia. }
  intros Heq. apply Ok_inj in Heq.
  pose proof (f_equal (λ r : gmap string value, r !! "point_count") Heq) as Hpc.
  pose proof (f_equal (λ r : gmap string value, r !! "points") Heq) as Hpts.
  pose proof (f_equal (λ r : gmap string value, r !! "intensities") Heq) as Hint.
  clear Heq. cbv beta in Hpc, Hpts, Hint.
  change (Some (VInt (Z.of_nat n1)) = Some (VInt (Z.of_nat n2))) in Hpc.
  assert (n1 = n2) as <- by (injection Hpc; lia).
  set (rs1 := chunks 4 n1 (float32_items buf1)) in *.
  set (rs2 := chunks 4 n1 (float32_items buf2)) in *.
  change (Some (VMat32 (slice_cols 3 (Matrix 4 rs1))) =
          Some (VMat32 (slice_cols 3 (Matrix 4 rs2)))) in Hpts.
  change (Some (VVec32 (omap (λ row, row !! 3%nat) rs1)) =
          Some (VVec32 (omap (λ row, row !! 3%nat) rs2))) in Hint.
  assert (take 3 <$> rs1 = take 3 <$> rs2) as Hxyz.
  { clearbody rs1 rs2. by injection Hpts. }
  assert (omap (λ row, row !! 3%nat) rs1 = omap (λ row, row !! 3%nat) rs2)
    as Hi3.
  { clearbody rs1 rs2. by injection Hint. }
  assert (length (float32_items buf1) = (n1 * 4)%nat) as Hl1
    by (rewrite (float32_items_length (4 * n1)); lia).
  assert (length (float32_items buf2) = (n1 * 4)%nat) as Hl2
    by (rewrite (float32_items_length (4 * n1)); lia).
  assert (rs1 = rs2) as Hrs.
  { apply rows_from_xyz_and_intensity; [| |done|done];
      apply chunks_row_length; lia. }
  apply (float32_items_inj (4 * n1)); [lia | lia |].
  rewrite <- (chunks_concat 4 n1 (float32_items buf1) Hl1).
  rewrite <- (chunks_concat 4 n1 (float32_items buf2) Hl2).
  by f_equal.
Qed.

(** ** The scaling of int16 coordinates *)

Lemma scale_check_int16 :
  scale_check (-2147483648) (-32768) (Z.to_nat 65536) = true.
Proof. vm_cast_no_check (eq_refl true). Qed.

Lemma scale_check_spec (n : nat) (prev v : Z) :
  scale_check prev v n = true →
  ∀ w : Z, v ≤ w < v + Z.of_nat n →
    scaled_in_range w (scale_int16 w) = true ∧
    prev < pattern_key (scale_int16 w) ∧
    ∀ u : Z, v ≤ u < w →
      pattern_key (scale_int16 u) < pattern_key (scale_int16 w).
Proof.
  revert prev v. induction n as [|n IH]; intros prev v Hchk w Hw; [lia|].
  cbn [scale_check] in Hchk. cbv zeta in Hchk.
  apply andb_prop in Hchk as [Hchk Hrest].
  apply andb_prop in Hchk as [Hrange Hprev]. apply Z.ltb_lt in Hprev.
  destruct (decide (w = v)) as [->|Hne].
  - split_and!; [done | done | intros u Hu; lia].
  - destruct (IH _ _ Hrest w ltac:(lia)) as (Hr & Hp & Hmono).
    split_and!; [done | lia |]. intros u Hu.
    destruct (decide (u = v)) as [->|Hne']; [done|]. apply Hmono. lia.
Qed.

Lemma scale_int16_in_range (v : Z) :
  -32768 ≤ v < 32768 → scaled_in_range v (scale_int16 v) = true.
Proof.
  intros Hv.
  apply (scale_check_spec _ _ _ scale_check_int16 v).
  rewrite Z2Nat.id; lia.
Qed.

Lemma scale_int16_mono (v w : Z) :
  -32768 ≤ v → v < w → w < 32768 →
  pattern_key (scale_int16 v) < pattern_key (scale_int16 w).
Proof.
  intros Hv Hvw Hw.
  apply (scale_check_spec _ _ _ scale_check_int16 w); [|lia].
  rewrite Z2Nat.id; lia.
Qed.

Lemma scale_int16_inj (v w : Z) :
  -32768 ≤ v < 32768 → -32768 ≤ w < 32768 →
  scale_int16 v = scale_int16 w → v = w.
Proof.
  intros Hv Hw Heq.
  destruct (Z.lt_trichotomy v w) as [Hlt|[Heq'|Hgt]]; [|done|].
  - pose proof (scale_int16_mono v w ltac:(lia) Hlt ltac:(lia)) as H.
    rewrite Heq in H. lia.
  - pose proof (scale_int16_mono w v ltac:(lia) Hgt ltac:(lia)) as H.
    rewrite Heq in H. lia.
Qed.

Lemma int16_items_range (buf : bytes) :
  Forall (λ v, -32768 ≤ v < 32768) (int16_items buf).
Proof.
  assert (Forall (λ v, -32768 ≤ v < 32768) (int16_items buf) ∧
          ∀ b : byte, Forall (λ v, -32768 ≤ v < 32768) (int16_items (b :: buf)))
    as [H _]; [|done].
  induction buf as [|b1 buf [IH1 IH2]].
  - split; [constructor | intros b; constructor].
  - split; [apply IH2|]. intros b0. cbn [int16_items].
    constructor; [apply int16_le_range | done].
Qed.

Lemma chunks_Forall {A : Type} (P : A → Prop) (c n : nat) (xs : list A) :
  Forall P xs → Forall (Forall P) (chunks c n xs).
Proof.
  revert xs. induction n as [|n IH]; intros xs Hxs; simpl; constructor.
  - by apply Forall_take.
  - by apply IH, Forall_drop.
Qed.

(** X11. In the int16 layout every coordinate [decode] returns is the
    scaled image of some int16 value [v], and it is never NaN nor an
    infinity: it is +0.0 when [v = 0], and otherwise a finite float32 of
    the sign of [v] with magnitude between 0.001 and 32.768. *)
Theorem decode_int16_coordinates_finite (buf : bytes)
    (md : option (gmap string value)) (n : nat) :
  (1 ≤ n)%nat → length buf = (12 * n)%nat →
  ∃ pts : list (list float32),
    decode buf md =
      Ok {[ "point_count" := VInt (Z.of_nat n);
            "points" := VMat32 (Matrix 3 pts);
            "format" := VStr "g1_slam_int16_12byte" ]} ∧
    Forall (Forall (λ x, ∃ v : Z,
              -32768 ≤ v < 32768 ∧ x = scale_int16 v ∧
              is_finite x = true ∧ scaled_in_range v x = true)) pts.
Proof.
  intros Hn Hlen. rewrite (decode_int16_multiple buf md n Hn Hlen).
  eexists. split; [reflexivity|].
  cbn [rows truediv astype_float32 slice_cols matrix_map].
  rewrite !Forall_fmap. eapply Forall_impl.
  { apply (chunks_Forall (λ v, -32768 ≤ v < 32768) 6 n), int16_items_range. }
  intros row Hrow. cbn. rewrite !Forall_fmap. apply Forall_take.
  eapply Forall_impl; [exact Hrow|]. intros v Hv. cbv beta in Hv.
  exists v. pose proof (scale_int16_in_range v Hv) as Hr.
  split_and!; [lia | lia | reflexivity | | exact Hr].
  unfold scaled_in_range in Hr. by apply andb_prop in Hr as [? _].
Qed.

Lemma decode_int16_coordinates_finite_witness :
  ∃ pts : list (list float32),
    decode sample_int16 None =
      Ok {[ "point_count" := VInt (Z.of_nat 1);
            "points" := VMat32 (Matrix 3 pts);
            "format" := VStr "g1_slam_int16_12byte" ]} ∧
    Forall (Forall (λ x, ∃ v : Z,
              -32768 ≤ v < 32768 ∧ x = scale_int16 v ∧
              is_finite x = true ∧ scaled_in_range v x = true)) pts.
Proof.
  apply (decode_int16_coordinates_finite sample_int16 None 1);
    [lia | reflexivity].
Defined.

Lemma list3_inj {A : Type} (a b c a' b' c' : A) :
  [a; b; c] = [a'; b'; c'] → a = a' ∧ b = b' ∧ c = c'.
Proof. by intros [= -> -> ->]. Qed.

Lemma xyz_fields_inj (r1 r2 : bytes) :
  length r1 = 6%nat → length r2 = 6%nat →
  fmap (M:=list) scale_int16 (int16_items r1) =
  fmap (M:=list) scale_int16 (int16_items r2) →
  r1 = r2.
Proof.
  intros H1 H2 Heq.
  destruct r1 as [|a0 [|a1 [|a2 [|a3 [|a4 [|a5 [|]]]]]]]; try done.
  destruct r2 as [|c0 [|c1 [|c2 [|c3 [|c4 [|c5 [|]]]]]]]; try done.
  cbn [int16_items fmap list_fmap] in Heq.
  apply list3_inj in Heq as (Hx & Hy & Hz).
  apply scale_int16_inj in Hx, Hy, Hz; try apply int16_le_range.
  apply int16_le_inj in Hx as [-> ->].
  apply int16_le_inj in Hy as [-> ->].
  by apply int16_le_inj in Hz as [-> ->].
Qed.

(** X12. In the int16 layout the result determines the coordinate bytes:
    when two buffers of the same length [12 * n] decode to the same
    dictionary, the first six bytes of every record are the same in both
    (distinct raw values never scale to the same float32). *)
Theorem decode_int16_determines_xyz (buf1 buf2 : bytes)
    (md1 md2 : option (gmap string value)) (n : nat) :
  (1 ≤ n)%nat → length buf1 = (12 * n)%nat → length buf2 = (12 * n)%nat →
  decode buf1 md1 = decode buf2 md2 →
  ∀ i : nat, (i < n)%nat →
    take 6 (drop (12 * i) buf1) = take 6 (drop (12 * i) buf2).
Proof.
  intros Hn H1 H2.
  rewrite (decode_int16_multiple buf1 md1 n Hn H1).
  rewrite (decode_int16_multiple buf2 md2 n Hn H2).
  intros Heq i Hi. apply Ok_inj in Heq.
  pose proof (f_equal (λ r : gmap string value, r !! "points") Heq) as Hpts.
  clear Heq. cbv beta in Hpts.
  set (rs1 := chunks 6 n (int16_items buf1)) in *.
  set (rs2 := chunks 6 n (int16_items buf2)) in *.
  change (Some (VMat32 (truediv (astype_float32 (slice_cols 3 (Matrix 6 rs1))) f32_1000)) =
          Some (VMat32 (truediv (astype_float32 (slice_cols 3 (Matrix 6 rs2))) f32_1000)))
    in Hpts.
  assert (fmap (M:=list) (fmap (M:=list) scale_int16) (take 3 <$> rs1) =
          fmap (M:=list) (fmap (M:=list) scale_int16) (take 3 <$> rs2)) as Hrows.
  { clearbody rs1 rs2.
    unfold truediv, astype_float32, slice_cols, matrix_map in Hpts.
    cbn [rows ncols] in Hpts.
    rewrite <- !(list_fmap_compose (fmap Float32.of_int)) in Hpts.
    assert (∀ l : list (list Z),
      (fmap (M:=list) (λ x, Float32.div x f32_1000) ∘ fmap Float32.of_int) <$> l =
      fmap (M:=list) scale_int16 <$> l) as Hc.
    { intros l. apply list_fmap_ext. intros _ row _. cbn.
      by rewrite <- list_fmap_compose. }
    rewrite !Hc in Hpts. by injection Hpts. }
  apply (f_equal (λ l, l !! i)) in Hrows. cbv beta in Hrows.
  subst rs1 rs2. rewrite !list_lookup_fmap, !chunks_lookup in Hrows by done.
  cbn [fmap option_fmap option_map] in Hrows.
  rewrite !int16_xyz_fields in Hrows.
  apply xyz_fields_inj.
  - rewrite length_take, length_drop. lia.
  - rewrite length_take, length_drop. lia.
  - set (L1 := scale_int16 <$> _) in *. set (L2 := scale_int16 <$> _) in *.
    clearbody L1 L2. by injection Hrows.
Qed.

Lemma int16_items_app (k : nat) (buf1 buf2 : bytes) :
  length buf1 = (2 * k)%nat →
  int16_items (buf1 ++ buf2) = int16_items buf1 ++ int16_items buf2.
Proof.
  revert buf1. induction k as [|k IH]; intros buf1 Hlen.
  - by destruct buf1.
  - destruct buf1 as [|b0 [|b1 rest]]; simpl in Hlen; try lia.
    cbn [app int16_items]. rewrite IH by lia. done.
Qed.

Lemma chunks_app {A : Type} (c n1 n2 : nat) (xs ys : list A) :
  length xs = (n1 * c)%nat →
  chunks c (n1 + n2) (xs ++ ys) = chunks c n1 xs ++ chunks c n2 ys.
Proof.
  revert xs. induction n1 as [|n1 IH]; intros xs Hlen.
  - by destruct xs.
  - cbn [Nat.add chunks app].
    rewrite take_app_le, drop_app_le by lia.
    rewrite IH by (rewrite length_drop; lia). done.
Qed.

(** X13. Decoding commutes with concatenation in the int16 layout: for
    two buffers made of whole 12-byte records, [decode] of their
    concatenation reports the sum of the two point counts and the points
    of the first followed by the points of the second. *)
Theorem decode_int16_app (buf1 buf2 : bytes)
    (md : option (gmap string value)) (n1 n2 : nat) :
  (1 ≤ n1)%nat → (1 ≤ n2)%nat →
  length buf1 = (12 * n1)%nat → length buf2 = (12 * n2)%nat →
  ∃ pts1 pts2 : list (list float32),
    decode buf1 md =
      Ok {[ "point_count" := VInt (Z.of_nat n1);
            "points" := VMat32 (Matrix 3 pts1);
            "format" := VStr "g1_slam_int16_12byte" ]} ∧
    decode buf2 md =
      Ok {[ "point_count" := VInt (Z.of_nat n2);
            "points" := VMat32 (Matrix 3 pts2);
            "format" := VStr "g1_slam_int16_12byte" ]} ∧
    decode (buf1 ++ buf2) md =
      Ok {[ "point_count" := VInt (Z.of_nat n1 + Z.of_nat n2);
            "points" := VMat32 (Matrix 3 (pts1 ++ pts2));
            "format" := VStr "g1_slam_int16_12byte" ]}.
Proof.
  intros Hn1 Hn2 H1 H2.
  assert (length (buf1 ++ buf2) = (12 * (n1 + n2))%nat) as H12
    by (rewrite length_app; lia).
  rewrite (decode_int16_multiple buf1 md n1 Hn1 H1).
  rewrite (decode_int16_multiple buf2 md n2 Hn2 H2).
  rewrite (decode_int16_multiple (buf1 ++ buf2) md (n1 + n2)%nat ltac:(lia) H12).
  eexists _, _. split_and!; [reflexivity | reflexivity |].
  rewrite Nat2Z.inj_add.
  rewrite (int16_items_app (6 * n1)) by lia.
  rewrite chunks_app by (rewrite (int16_items_length (6 * n1)); lia).
  unfold truediv, astype_float32, slice_cols, matrix_map. cbn [rows ncols].
  by rewrite !fmap_app.
Qed.

Lemma decode_int16_app_witness :
  ∃ pts1 pts2 : list (list float32),
    decode sample_int16 None =
      Ok {[ "point_count" := VInt (Z.of_nat 1);
            "points" := VMat32 (Matrix 3 pts1);
            "format" := VStr "g1_slam_int16_12byte" ]} ∧
    decode sample_int16_padded None =
      Ok {[ "point_count" := VInt (Z.of_nat 1);
            "points" := VMat32 (Matrix 3 pts2);
            "format" := VStr "g1_slam_int16_12byte" ]} ∧
    decode (sample_int16 ++ sample_int16_padded) None =
      Ok {[ "point_count" := VInt (Z.of_nat 1 + Z.of_nat 1);
            "points" := VMat32 (Matrix 3 (pts1 ++ pts2));
            "format" := VStr "g1_slam_int16_12byte" ]}.
Proof.
  apply (decode_int16_app sample_int16 sample_int16_padded None 1 1);
    [lia | lia | reflexivity | reflexivity].
Defined.

Lemma decode_int16_ignores_padding_witness :
  decode sample_int16 None = decode sample_int16_padded None.
Proof.
  apply (decode_int16_ignores_padding sample_int16 sample_int16_padded None 1);
    [lia | reflexivity | reflexivity |].
  intros [|i] Hi; [reflexivity | lia].
Defined.

Lemma decode_int16_determines_xyz_witness :
  take 6 (drop (12 * 0) sample_int16) =
  take 6 (drop (12 * 0) sample_int16_padded).
Proof.
  apply (decode_int16_determines_xyz sample_int16 sample_int16_padded
           None None 1 ltac:(lia) eq_refl eq_refl); [by vm_compute | lia].
Defined.

Lemma decode_xyzi_injective_witness : sample_xyzi = sample_xyzi.
Proof.
  apply (decode_xyzi_injective sample_xyzi sample_xyzi None None);
    by vm_compute.
Defined.

(** X14. Called on its own with a buffer of length [16 * n] (a multiple
    of 12 or not), [_decode_xyzi_float32] returns [n] points and [n]
    intensities tagged ["xyzi_float32"]: point [i] is the first three
    float32 fields of the [i]-th 16-byte record and intensity [i] the
    fourth, bit for bit. *)
Theorem _decode_xyzi_float32_layout (buf : bytes) (n : nat) :
  length buf = (16 * n)%nat →
  ∃ (pts : list (list float32)) (ints : list float32),
    _decode_xyzi_float32 buf =
      Ok {[ "point_count" := VInt (Z.of_nat n);
            "points" := VMat32 (Matrix 3 pts);
            "intensities" := VVec32 ints;
            "format" := VStr "xyzi_float32" ]} ∧
    length pts = n ∧
    length ints = n ∧
    ∀ (i : nat) (b0 b1 b2 b3 b4 b5 b6 b7 b8 b9 b10 b11 b12 b13 b14 b15 : byte),
      take 16 (drop (16 * i) buf) =
        [b0; b1; b2; b3; b4; b5; b6; b7; b8; b9; b10; b11; b12; b13; b14; b15] →
      pts !! i = Some [ float32_le b0 b1 b2 b3;
                        float32_le b4 b5 b6 b7;
                        float32_le b8 b9 b10 b11 ] ∧
      ints !! i = Some (float32_le b12 b13 b14 b15).
Proof.
  intros Hlen.
  assert (Forall (λ row : list float32, 3 < length row)%nat
            (chunks 4 n (float32_items buf))) as Hrows.
  { eapply Forall_impl.
    - apply chunks_row_length. rewrite (float32_items_length (4 * n)); lia.
    - intros row ->. simpl. lia. }
  rewrite (_decode_xyzi_float32_multiple buf n Hlen).
  eexists _, _. split_and!; [reflexivity | | |].
  - cbn [rows slice_cols]. by rewrite length_fmap, chunks_length.
  - by rewrite omap_lookup_length, chunks_length.
  - intros i b0 b1 b2 b3 b4 b5 b6 b7 b8 b9 b10 b11 b12 b13 b14 b15 Hrec.
    pose proof (record_in_range buf 16 i _ Hrec eq_refl) as Hi.
    cbn [rows slice_cols].
    rewrite list_lookup_fmap, omap_lookup_lookup by done.
    rewrite chunks_lookup by lia.
    by rewrite (float32_record _ _ _ Hrec).
Qed.

Lemma _decode_xyzi_float32_layout_witness :
  ∃ (pts : list (list float32)) (ints : list float32),
    _decode_xyzi_float32 sample_xyzi =
      Ok {[ "point_count" := VInt (Z.of_nat 1);
            "points" := VMat32 (Matrix 3 pts);
            "intensities" := VVec32 ints;
            "format" := VStr "xyzi_float32" ]} ∧
    length pts = 1%nat ∧
    length ints = 1%nat ∧
    ∀ (i : nat) (b0 b1 b2 b3 b4 b5 b6 b7 b8 b9 b10 b11 b12 b13 b14 b15 : byte),
      take 16 (drop (16 * i) sample_xyzi) =
        [b0; b1; b2; b3; b4; b5; b6; b7; b8; b9; b10; b11; b12; b13; b14; b15] →
      pts !! i = Some [ float32_le b0 b1 b2 b3;
                        float32_le b4 b5 b6 b7;
                        float32_le b8 b9 b10 b11 ] ∧
      ints !! i = Some (float32_le b12 b13 b14 b15).
Proof. apply (_decode_xyzi_float32_layout sample_xyzi 1). reflexivity. Defined.

(** ** The handler and the logging sink *)

(** On an item buffer the handler does run: [len] says 12, the 24 bytes
    hold 12 int16 values, and [reshape((1, 6))] fails. *)
Example decode_view_reshape_error :
  Dynamic.decode Dynamic.sample_int16_view None [] =
  (Ok {[ "point_count" := VInt 0;
         "points" := np_array_empty;
         "error" := VStr "cannot reshape array of size 12 into shape (1,6)" ]},
   [Dynamic.LogRecord "ERROR"
      "PointCloud2 decode error: cannot reshape array of size 12 into shape (1,6)"]).
Proof. reflexivity. Qed.

Example decode_view16_reshape_error :
  Dynamic.decode Dynamic.sample_int16_view16 None [] =
  (Ok {[ "point_count" := VInt 0;
         "points" := np_array_empty;
         "error" := VStr "cannot reshape array of size 8 into shape (1,4)" ]},
   [Dynamic.LogRecord "ERROR"
      "PointCloud2 decode error: cannot reshape array of size 8 into shape (1,4)"]).
Proof. reflexivity. Qed.

Lemma py_len_of_bytes (buf : bytes) :
  Dynamic.py_len (Dynamic.of_bytes buf) = Z.of_nat (length buf).
Proof. unfold Dynamic.py_len. simpl. apply Z.div_1_r. Qed.

Lemma decode_try_of_bytes (buf : bytes) :
  Dynamic.decode_try (Dynamic.of_bytes buf) = decode_try buf.
Proof.
  unfold Dynamic.decode_try, decode_try,
    Dynamic._decode_int16_12byte, _decode_int16_12byte,
    Dynamic._decode_xyzi_float32, _decode_xyzi_float32,
    Dynamic._decode_xyz_float32, _decode_xyz_float32.
  by rewrite py_len_of_bytes.
Qed.

Lemma decode_try_returns (buf : bytes) :
  ∃ r : gmap string value, decode_try buf = Ok r ∧ decode buf None = Ok r.
Proof.
  destruct (decode_cases buf None)
    as [[_ H]|[(n & _ & _ & H)|(n & _ & _ & _ & H)]];
    pose proof H as H'; unfold decode, try_except in H';
    destruct (decode_try buf) as [r|exc]; try discriminate;
    exists r; by rewrite H.
Qed.
(** On a [bytes] object the buffer-object model is the typed one, and the
    sink is left as it was. *)
Lemma decode_of_bytes (buf : bytes) (md : option (gmap string value))
    (sink : list Dynamic.log_record) :
  Dynamic.decode (Dynamic.of_bytes buf) md sink = (decode buf md, sink).
Proof.
  unfold Dynamic.decode. rewrite decode_try_of_bytes.
  destruct (decode_try_returns buf) as (r & Htry & _).
  unfold decode, try_except. by rewrite Htry.
Qed.

(** A value the [try] block returns never has an ["error"] key. *)
Lemma decode_try_no_error (binary_data : Dynamic.pybuffer)
    (r : gmap string value) :
  Dynamic.decode_try binary_data = Ok r → r !! "error" = None.
Proof.
  assert (∀ o, Dynamic._decode_int16_12byte o = Ok r → r !! "error" = None)
    as Hint16.
  { intros o. unfold Dynamic._decode_int16_12byte.
    destruct (negb _); [by intros [= <-]|].
    destruct (frombuffer_int16 _) as [flat|]; [|done]. rewrite bind_Ok.
    destruct (reshape flat _) as [m|]; [|done]. rewrite bind_Ok.
    by intros [= <-]. }
  assert (∀ o, Dynamic._decode_xyzi_float32 o = Ok r → r !! "error" = None)
    as Hxyzi.
  { intros o. unfold Dynamic._decode_xyzi_float32.
    destruct (frombuffer_float32 _) as [flat|]; [|done]. rewrite bind_Ok.
    destruct (reshape flat _) as [m|]; [|done]. rewrite bind_Ok.
    destruct (column 3 m) as [ints|]; [|done]. rewrite bind_Ok.
    by intros [= <-]. }
  assert (∀ o, Dynamic._decode_xyz_float32 o = Ok r → r !! "error" = None)
    as Hxyz.
  { intros o. unfold Dynamic._decode_xyz_float32.
    destruct (frombuffer_float32 _) as [flat|]; [|done]. rewrite bind_Ok.
    destruct (reshape flat _) as [m|]; [|done]. rewrite bind_Ok.
    by intros [= <-]. }
  unfold Dynamic.decode_try. cbv zeta.
  destruct (_ =? 0); [by intros [= <-]|].
  destruct (_ mod 12 =? 0); [apply Hint16|].
  destruct (_ mod 16 =? 0); [apply Hxyzi | apply Hint16].
Qed.

(** ** The claims about the handler and about purity *)

(** C1. For every buffer object, every optional metadata mapping and
    every state of the logging sink, [decode] returns a dictionary and
    never raises. Either the [try] block returned that dictionary and the
    sink is untouched, or the block raised [exc] and the handler logged
    it and returned the dictionary with [point_count = 0], empty points
    and [str(exc)] in its ["error"] field. *)
Theorem decode_never_raises (binary_data : Dynamic.pybuffer)
    (md : option (gmap string value)) (sink : list Dynamic.log_record) :
  ∃ (r : gmap string value) (sink' : list Dynamic.log_record),
    Dynamic.decode binary_data md sink = (Ok r, sink') ∧
    ((Dynamic.decode_try binary_data = Ok r ∧ sink' = sink) ∨
     ∃ exc : exn,
       Dynamic.decode_try binary_data = Raise exc ∧
       r = {[ "point_count" := VInt 0;
              "points" := np_array_empty;
              "error" := VStr (str exc) ]} ∧
       sink' = sink ++ [Dynamic.LogRecord "ERROR"
                          ("PointCloud2 decode error: " +:+ str exc)]).
Proof.
  unfold Dynamic.decode.
  destruct (Dynamic.decode_try binary_data) as [r|exc].
  - exists r, sink. split; [done|]. by left.
  - eexists _, _. split; [reflexivity|]. right. by exists exc.
Qed.

(** C8. In every dictionary [decode] returns, for every buffer object,
    ["error"] and ["format"] are never both present, and a dictionary with
    ["error"] has [point_count = 0] and empty points. ["error"] is present
    exactly when the [try] block raised. *)
Theorem decode_error_excludes_format (binary_data : Dynamic.pybuffer)
    (md : option (gmap string value)) (sink : list Dynamic.log_record) :
  ∃ (r : gmap string value) (sink' : list Dynamic.log_record),
    Dynamic.decode binary_data md sink = (Ok r, sink') ∧
    (r !! "error" = None ∨ r !! "format" = None) ∧
    (r !! "error" = None ∨
     (r !! "point_count" = Some (VInt 0) ∧
      r !! "points" = Some np_array_empty)) ∧
    ((r !! "error" = None ∧ Dynamic.decode_try binary_data = Ok r) ∨
     (∃ exc : exn, r !! "error" = Some (VStr (str exc)) ∧
                   Dynamic.decode_try binary_data = Raise exc)).
Proof.
  unfold Dynamic.decode.
  destruct (Dynamic.decode_try binary_data) as [r|exc] eqn:Htry.
  - exists r, sink. pose proof (decode_try_no_error _ _ Htry) as Herr.
    split_and!; [done | by left | by left | by left].
  - eexists _, _. split; [reflexivity|].
    split_and!; [by right | by right | right; by exists exc].
Qed.

(** C9. On a [bytes] buffer [decode] is a pure function of the buffer
    alone: whatever the metadata (a mapping or none) and whatever the
    state of the logging sink, every call returns the same dictionary, the
    one the typed [decode] computes, and leaves the sink as it found it. *)
Theorem decode_ignores_metadata (buf : bytes)
    (md1 md2 : option (gmap string value))
    (sink1 sink2 : list Dynamic.log_record) :
  ∃ r : gmap string value,
    Dynamic.decode (Dynamic.of_bytes buf) md1 sink1 = (Ok r, sink1) ∧
    Dynamic.decode (Dynamic.of_bytes buf) md2 sink2 = (Ok r, sink2) ∧
    decode buf md1 = Ok r ∧ decode buf md2 = Ok r.
Proof.
  destruct (decode_try_returns buf) as (r & Htry & _).
  assert (∀ md, decode buf md = Ok r) as Hdec
    by (intros md; unfold decode, try_except; by rewrite Htry).
  exists r. rewrite !decode_of_bytes, !Hdec. done.
Qed.
(*END*)
